(** * RescueLink backend: the alert routes ([src/routes/alerts.js])

    A shallow embedding of the Express handlers of the alert router and of
    the part of the Supabase (PostgREST) client they talk to, followed by
    the properties of the alert lifecycle and of the dispatch assignment.

    - JavaScript values are an inductive type; a JS object used as a record
      (request body, query string, table row) is a [gmap string value].
    - The record store is explicit state: three tables of rows and the id
      sequence of the alert table.  A store call may be refused by the
      store; refusals are read from a schedule that is part of the world
      a handler runs in.
    - A handler is a function from a world to an outcome and a world.  An
      outcome is a value or a thrown error; every handler body sits in the
      [try]/[catch] of the source, which answers 500. *)

From Stdlib Require Import QArith Qcanon.
From stdpp Require Import base option numbers strings pretty list gmap fin_maps sorting.

Open Scope string_scope.

(** ** JavaScript values *)

Module JS.

(** A JS number is a double: not-a-number, an infinity, or a finite value,
    kept here as the rational it denotes ([-0] and [+0] are not told
    apart: the handlers only test numbers for truthiness and equality). *)
Inductive number :=
| NaN
| Infinity (negative : bool)
| Fin (q : Qc).

#[warnings="-register-all"] Inductive value :=
| VUndefined
| VNull
| VBool (b : bool)
| VNum (n : number)
| VStr (s : string)
| VArr (items : list value)
| VObj (fields : list (string * value)).

Definition int (z : Z) : value := VNum (Fin (Qc_of_Z z)).

Definition number_eqb (a b : number) : bool :=
  match a, b with
  | Fin p, Fin q => bool_decide (p = q)
  | Infinity s, Infinity t => Bool.eqb s t
  | _, _ => false
  end.

Definition number_truthy (n : number) : bool :=
  match n with
  | NaN => false
  | Infinity _ => true
  | Fin q => negb (bool_decide (q = Qc_of_Z 0))
  end.

(** [ToBoolean]: what [if (v)], [!v], [v || w] and [v && w] look at. *)
Definition truthy (v : value) : bool :=
  match v with
  | VUndefined | VNull => false
  | VBool b => b
  | VNum n => number_truthy n
  | VStr s => negb (String.eqb s "")
  | VArr _ | VObj _ => true
  end.

(** [a || b] and [a && b] on values. *)
Definition or_else (a b : value) : value := if truthy a then a else b.
Definition and_then (a b : value) : value := if truthy a then b else a.

(** [a === b].  Arrays and objects are compared by reference; two of them
    that reach a handler from different places (token, body, store) are
    never the same reference. *)
Definition strict_eq (a b : value) : bool :=
  match a, b with
  | VUndefined, VUndefined => true
  | VNull, VNull => true
  | VBool x, VBool y => Bool.eqb x y
  | VNum x, VNum y => number_eqb x y
  | VStr x, VStr y => String.eqb x y
  | _, _ => false
  end.

(** [[lit1, lit2, ...].includes(v)] for an array of string literals. *)
Definition includes (lits : list string) (v : value) : bool :=
  existsb (fun l => strict_eq (VStr l) v) lits.

(** Property read [o.k] on an object held as a map: [undefined] when the
    key is absent. *)
Definition get (o : gmap string value) (k : string) : value :=
  default VUndefined (o !! k).

(** *** [JSON.stringify]

    What a value is once it has been written as JSON and read back: a
    number that is not finite becomes null; inside an array [undefined]
    becomes null; a field of an object that is [undefined] is left out. *)
Fixpoint stringified (v : value) : value :=
  match v with
  | VUndefined => VNull
  | VNum NaN => VNull
  | VNum (Infinity _) => VNull
  | VArr items => VArr (map stringified items)
  | VObj fields =>
      VObj ((fix kept (fs : list (string * value)) : list (string * value) :=
               match fs with
               | [] => []
               | (k, VUndefined) :: fs' => kept fs'
               | (k, x) :: fs' => (k, stringified x) :: kept fs'
               end) fields)
  | _ => v
  end.

(** The same for a property of the object that is written: [None] when
    the property is left out. *)
Definition property (v : value) : option value :=
  match v with
  | VUndefined => None
  | _ => Some (stringified v)
  end.

(** A value JSON carries as it is, among those that are not arrays or
    objects. *)
Definition scalar (v : value) : bool :=
  match v with
  | VNull | VBool _ | VStr _ | VNum (Fin _) => true
  | _ => false
  end.

(** *** Template literals ([`${v}`])

    The text a value is written as inside a template literal.  An array is
    the texts of its elements joined by commas, where a null or undefined
    element is the empty text; an object is [[object Object]].  Of the
    finite numbers the integers below [10^21] are written, in decimal
    digits; the text of the others is left open. *)
Definition number_text (n : number) : option string :=
  match n with
  | NaN => Some "NaN"
  | Infinity negative => Some (if negative then "-Infinity" else "Infinity")
  | Fin q =>
      if bool_decide (Qden q = 1%positive ∧ (Z.abs (Qnum q) < 10 ^ 21)%Z)
      then Some (pretty (Qnum q)) else None
  end.

Fixpoint text (v : value) : option string :=
  match v with
  | VUndefined => Some "undefined"
  | VNull => Some "null"
  | VBool b => Some (if b then "true" else "false")
  | VNum n => number_text n
  | VStr s => Some s
  | VArr items =>
      (fix joined (l : list value) : option string :=
         let element := fun x => match x with
                                 | VUndefined | VNull => Some ""
                                 | _ => text x
                                 end in
         match l with
         | [] => Some ""
         | x :: l' =>
             match l' with
             | [] => element x
             | _ :: _ =>
                 match element x, joined l' with
                 | Some a, Some b => Some (a +:+ "," +:+ b)
                 | _, _ => None
                 end
             end
         end) items
  | VObj _ => Some "[object Object]"
  end.

(** *** [String.prototype.trim]

    Strings are byte strings in UTF-8.  [white_space] lists the encodings
    of the code points ECMAScript calls WhiteSpace or LineTerminator. *)
Definition bytes (l : list nat) : string :=
  String.string_of_list_ascii (map Ascii.ascii_of_nat l).

Definition white_space : list string :=
  map bytes
    [ [9]; [10]; [11]; [12]; [13]; [32];
      [194; 160]; [225; 154; 128];
      [226; 128; 128]; [226; 128; 129]; [226; 128; 130]; [226; 128; 131];
      [226; 128; 132]; [226; 128; 133]; [226; 128; 134]; [226; 128; 135];
      [226; 128; 136]; [226; 128; 137]; [226; 128; 138];
      [226; 128; 168]; [226; 128; 169]; [226; 128; 175];
      [226; 129; 159]; [227; 128; 128]; [239; 187; 191] ].

Fixpoint strip_prefix (p s : string) : option string :=
  match p, s with
  | EmptyString, _ => Some s
  | String a p', String b s' => if Ascii.eqb a b then strip_prefix p' s' else None
  | String _ _, EmptyString => None
  end.

Fixpoint strip_first (ps : list string) (s : string) : option string :=
  match ps with
  | [] => None
  | p :: ps' =>
      match strip_prefix p s with
      | Some rest => Some rest
      | None => strip_first ps' s
      end
  end.

Fixpoint trim_start_fuel (fuel : nat) (ws : list string) (s : string) : string :=
  match fuel with
  | O => s
  | S fuel' =>
      match strip_first ws s with
      | Some rest => trim_start_fuel fuel' ws rest
      | None => s
      end
  end.

Definition trimStart (s : string) : string :=
  trim_start_fuel (String.length s) white_space s.

Definition trimEnd (s : string) : string :=
  String.rev
    (trim_start_fuel (String.length s) (map String.rev white_space) (String.rev s)).

Definition trim (s : string) : string := trimEnd (trimStart s).

End JS.

(** ** The record store

    What the handlers see of Supabase: tables of rows, queries built by
    chaining, and an answer [{ data, error }] to every awaited query.  The
    client is a library, not code of this repository; the model follows
    the contract its documentation gives for the calls the handlers make.
    The client never rejects the promise of a query; a refusal by the
    store comes back in [error]. *)

Module Store.
Import JS.

Inductive tbl := Alerts | Vehicles | Users.

Record store := {
  alerts : list (gmap string value);
  vehicles : list (gmap string value);
  users : list (gmap string value);
  alert_seq : Z;
}.

Definition table (t : tbl) (s : store) : list (gmap string value) :=
  match t with
  | Alerts => alerts s
  | Vehicles => vehicles s
  | Users => users s
  end.

Definition set_table (t : tbl) (rows : list (gmap string value)) (s : store) : store :=
  match t with
  | Alerts => {| alerts := rows; vehicles := vehicles s; users := users s; alert_seq := alert_seq s |}
  | Vehicles => {| alerts := alerts s; vehicles := rows; users := users s; alert_seq := alert_seq s |}
  | Users => {| alerts := alerts s; vehicles := vehicles s; users := rows; alert_seq := alert_seq s |}
  end.

(** The error object of an answer; the handlers read its [message] only
    (the empty string stands for a message that is absent). *)
Record error := { message : string }.

Inductive data :=
| DNull
| DRow (r : gmap string value)
| DRows (rs : list (gmap string value)).

Record result := { r_data : data; r_error : option error }.

Definition answer (d : data) : result := {| r_data := d; r_error := None |}.
Definition refuse (e : error) : result := {| r_data := DNull; r_error := Some e |}.

(** A cell of a row; an absent column is SQL NULL. *)
Definition cell (r : gmap string value) (c : string) : value :=
  default VNull (r !! c).

(** *** Filters

    The argument of [.eq(column, arg)] travels as text ([`eq.${arg}`]) and
    is read at the type of the column: a numeric cell also matches the
    decimal text of its integer value, and an argument that is an array or
    an object is compared as its text is, so that [['pending']] filters as
    ['pending'] does.  NULL matches nothing. *)
Fixpoint read_digits (acc : Z) (s : string) : option Z :=
  match s with
  | EmptyString => Some acc
  | String c s' =>
      let n := Z.of_nat (Ascii.nat_of_ascii c) in
      if bool_decide (48 <= n <= 57)%Z then read_digits (10 * acc + (n - 48)) s' else None
  end.

Definition read_number (s : string) : option number :=
  match s with
  | EmptyString => None
  | String c s' =>
      if bool_decide (Ascii.nat_of_ascii c = 45)
      then if String.eqb s' "" then None
           else (fun z => Fin (Qc_of_Z (- z))) <$> read_digits 0 s'
      else (fun z => Fin (Qc_of_Z z)) <$> read_digits 0 s
  end.

Definition pg_eq_text (c : value) (t : string) : bool :=
  match c with
  | VNum a =>
      match read_number t with
      | Some b => number_eqb a b
      | None => false
      end
  | VStr a => String.eqb a t
  | _ => false
  end.

Definition pg_eq (c arg : value) : bool :=
  match c, arg with
  | VNum a, VNum b => number_eqb a b
  | VNum a, VStr t =>
      match read_number t with
      | Some b => number_eqb a b
      | None => false
      end
  | VStr a, VStr b => String.eqb a b
  | VBool a, VBool b => Bool.eqb a b
  | _, VArr _ | _, VObj _ =>
      match text arg with
      | Some t => pg_eq_text c t
      | None => false
      end
  | _, _ => false
  end.

Definition matches (fs : list (string * value)) (r : gmap string value) : bool :=
  forallb (fun f => pg_eq (cell r f.1) f.2) fs.

(** *** Ordering ([.order(column, { ascending })])

    NULL sorts after every value; cells of one column have one type. *)
Definition cell_leb (a b : value) : bool :=
  match a, b with
  | _, VNull => true
  | VNull, _ => false
  | VNum (Fin p), VNum (Fin q) => bool_decide (p ≤ q)%Qc
  | VStr x, VStr y => String.leb x y
  | VBool x, VBool y => implb x y
  | _, _ => true
  end.

Definition order_rel (o : string * bool) (r1 r2 : gmap string value) : Prop :=
  if o.2 then cell_leb (cell r1 o.1) (cell r2 o.1) = true
  else cell_leb (cell r2 o.1) (cell r1 o.1) = true.

#[global] Instance order_rel_dec o r1 r2 : Decision (order_rel o r1 r2).
Proof. unfold order_rel. destruct (o.2); apply _. Defined.

Definition ordered (o : option (string * bool)) (rows : list (gmap string value)) :
    list (gmap string value) :=
  match o with
  | None => rows
  | Some o => merge_sort (order_rel o) rows
  end.

(** *** Column lists and embedded resources

    [select(`*, alias:key(c1, c2)`)] returns the row and, under [alias],
    the columns [c1, c2] of the row of the referenced table whose [id] is
    the cell [key] ([null] when there is none). *)
Inductive columns := Star | Only (cs : list string).

Record embed := {
  e_alias : string;
  e_key : string;
  e_table : tbl;
  e_cols : list string;
}.

Record selection := { s_cols : columns; s_embeds : list embed }.

Definition project (c : columns) (r : gmap string value) : gmap string value :=
  match c with
  | Star => r
  | Only cs => filter (fun kv => kv.1 ∈ cs) r
  end.

Definition embed_one (s : store) (r : gmap string value) (e : embed) : value :=
  match List.find (fun t => pg_eq (cell t "id") (cell r (e_key e))) (table (e_table e) s) with
  | Some t => VObj (map (fun c => (c, cell t c)) (e_cols e))
  | None => VNull
  end.

Definition expand (s : store) (sel : selection) (r : gmap string value) : gmap string value :=
  foldr (fun e acc => <[e_alias e := embed_one s r e]> acc) (project (s_cols sel) r) (s_embeds sel).

(** *** Queries *)
Inductive verb :=
| Select
| Insert (r : gmap string value)
| Update (d : gmap string value)
| Delete.

Record query := {
  q_from : tbl;
  q_verb : verb;
  q_filters : list (string * value);
  q_returning : option selection;
  q_order : option (string * bool);
  q_single : bool;
}.

Definition from (t : tbl) : query :=
  {| q_from := t; q_verb := Select; q_filters := []; q_returning := None;
     q_order := None; q_single := false |}.

Definition with_verb (v : verb) (q : query) : query :=
  {| q_from := q_from q; q_verb := v; q_filters := q_filters q;
     q_returning := q_returning q; q_order := q_order q; q_single := q_single q |}.

Definition insert (r : gmap string value) : query -> query := with_verb (Insert r).
Definition update (d : gmap string value) : query -> query := with_verb (Update d).
Definition delete : query -> query := with_verb Delete.

Definition select (sel : selection) (q : query) : query :=
  {| q_from := q_from q; q_verb := q_verb q; q_filters := q_filters q;
     q_returning := Some sel; q_order := q_order q; q_single := q_single q |}.

Definition eq (c : string) (arg : value) (q : query) : query :=
  {| q_from := q_from q; q_verb := q_verb q; q_filters := q_filters q ++ [(c, arg)];
     q_returning := q_returning q; q_order := q_order q; q_single := q_single q |}.

Definition order (c : string) (ascending : bool) (q : query) : query :=
  {| q_from := q_from q; q_verb := q_verb q; q_filters := q_filters q;
     q_returning := q_returning q; q_order := Some (c, ascending); q_single := q_single q |}.

Definition single (q : query) : query :=
  {| q_from := q_from q; q_verb := q_verb q; q_filters := q_filters q;
     q_returning := q_returning q; q_order := q_order q; q_single := true |}.

(** The store's answer to [.single()] when the rows are not exactly one. *)
Definition not_single : error :=
  {| message := "JSON object requested, multiple (or no) rows returned" |}.

(** What a query hands back for the rows it read or wrote.  Without a
    [select] a write hands back nothing.  With [.single()] the rows must be
    exactly one, otherwise the answer is an error. *)
Definition returning (s : store) (q : query) (rows : list (gmap string value)) : result :=
  match q_returning q with
  | None => answer DNull
  | Some sel =>
      let out := expand s sel <$> rows in
      if q_single q
      then match out with
           | [r] => answer (DRow r)
           | _ => refuse not_single
           end
      else answer (DRows out)
  end.

(** A write whose answer is an error is not applied. *)
Definition commit (s s' : store) (q : query) (rows : list (gmap string value)) :
    result * store :=
  let res := returning s' q rows in
  match r_error res with
  | Some _ => (res, s)
  | None => (res, s')
  end.

(** Cells the store fills in for a new row. *)
Definition defaults (t : tbl) (now : string) (s : store) : gmap string value :=
  match t with
  | Alerts => {[ "id" := int (alert_seq s); "reported_at" := VStr now ]}
  | _ => ∅
  end.

Definition next_seq (t : tbl) (s : store) : store :=
  match t with
  | Alerts => {| alerts := alerts s; vehicles := vehicles s; users := users s;
                 alert_seq := alert_seq s + 1 |}
  | _ => s
  end.

(** The body of an insert or an update reaches the store as JSON:
    [JSON.stringify] of the object the handler built. *)
Definition sent (d : gmap string value) : gmap string value := omap property d.

Definition exec (now : string) (q : query) (s : store) : result * store :=
  let t := table (q_from q) s in
  let hit := fun r => matches (q_filters q) r = true in
  match q_verb q with
  | Select => (returning s q (ordered (q_order q) (filter hit t)), s)
  | Insert r =>
      let r' := sent r ∪ defaults (q_from q) now s in
      commit s (next_seq (q_from q) (set_table (q_from q) (t ++ [r']) s)) q [r']
  | Update d =>
      let t' := (fun r => if decide (hit r) then sent d ∪ r else r) <$> t in
      commit s (set_table (q_from q) t' s) q ((fun r => sent d ∪ r) <$> filter hit t)
  | Delete =>
      commit s (set_table (q_from q) (filter (fun r => ¬ hit r) t) s) q (filter hit t)
  end.

End Store.

(** ** Handlers as programs over a world *)

Module Handler.
Import JS Store.

(** The world of one request: the store, the schedule of refusals (one
    entry per awaited query, [Some e] when the store refuses that query
    with [e]; past its end nothing is refused) and the clock. *)
Record world := {
  db : store;
  faults : list (option error);
  clock : string;
}.

Inductive outcome (A : Type) :=
| Ok (a : A)
| Thrown (e : error).
Arguments Ok {A} a.
Arguments Thrown {A} e.

Definition M (A : Type) : Type := world -> outcome A * world.

Definition ret {A} (a : A) : M A := fun w => (Ok a, w).

Definition bind {A B} (m : M A) (k : A -> M B) : M B :=
  fun w =>
    match m w with
    | (Ok a, w') => k a w'
    | (Thrown e, w') => (Thrown e, w')
    end.

Definition throw {A} (e : error) : M A := fun w => (Thrown e, w).

Notation "x <- m ;; k" := (bind m (fun x => k))
  (at level 100, m at next level, right associativity).

(** [await query] *)
Definition await (q : query) : M result :=
  fun w =>
    match faults w with
    | Some e :: rest =>
        (Ok (refuse e), {| db := db w; faults := rest; clock := clock w |})
    | _ =>
        let '(res, s') := exec (clock w) q (db w) in
        (Ok res, {| db := s'; faults := tail (faults w); clock := clock w |})
    end.

(** [new Date().toISOString()] *)
Definition toISOString : M string := fun w => (Ok (clock w), w).

(** [if (error) throw error;] *)
Definition throw_if (e : option error) : M unit :=
  match e with
  | Some e => throw e
  | None => ret tt
  end.

Definition type_error (msg : string) : error := {| message := msg |}.

(** [data.k]: reading a property of [null] throws. *)
Definition prop (d : data) (k : string) : M value :=
  match d with
  | DRow r => ret (get r k)
  | DRows _ => ret VUndefined
  | DNull => throw (type_error ("Cannot read properties of null (reading '" +:+ k +:+ "')"))
  end.

(** [data?.k] *)
Definition opt_prop (d : data) (k : string) : value :=
  match d with
  | DRow r => get r k
  | _ => VUndefined
  end.

(** [!data] *)
Definition data_truthy (d : data) : bool :=
  match d with
  | DNull => false
  | _ => true
  end.

(** [v.trim()] for the variable called [name]. *)
Definition call_trim (name : string) (v : value) : M value :=
  match v with
  | VStr s => ret (VStr (trim s))
  | VUndefined => throw (type_error "Cannot read properties of undefined (reading 'trim')")
  | VNull => throw (type_error "Cannot read properties of null (reading 'trim')")
  | _ => throw (type_error (name +:+ ".trim is not a function"))
  end.

(** [v?.trim()]; the error names the call as it is written. *)
Definition opt_call_trim (name : string) (v : value) : M value :=
  match v with
  | VUndefined | VNull => ret VUndefined
  | _ => call_trim (name +:+ "?") v
  end.

(** [parseFloat(v)].  A number is printed and read back, which gives the
    number again.  What the number grammar makes of any other argument is
    left to [other]. *)
Definition parseFloat (other : value -> number) (v : value) : number :=
  match v with
  | VNum n => n
  | _ => other v
  end.

(** *** Requests and responses *)
Record user := { u_id : value; u_role : value }.

(** [req.user], [req.params.id], [req.query] and [req.body] *)
Record request := {
  req_user : user;
  req_params_id : string;
  req_query : gmap string value;
  req_body : gmap string value;
}.

Inductive payload :=
| Message (m : string)
| Json (d : data).

Record response := { status : Z; json : payload }.

(** [res.status(c).json({ message: m })] and [res.json(d)] *)
Definition respond (c : Z) (m : string) : response := {| status := c; json := Message m |}.
Definition send (d : data) : response := {| status := 200; json := Json d |}.

(** [try { ... } catch (error) { res.status(500).json({ message:
    error.message || 'Server error' }) }] *)
Definition try_catch (m : M response) : world -> response * world :=
  fun w =>
    match m w with
    | (Ok r, w') => (r, w')
    | (Thrown e, w') =>
        (respond 500 (if String.eqb (message e) "" then "Server error" else message e), w')
    end.

(** *** The column lists of the handlers *)
Definition user_embed (cols : list string) : embed :=
  {| e_alias := "user"; e_key := "user_id"; e_table := Users; e_cols := cols |}.
Definition vehicle_embed (cols : list string) : embed :=
  {| e_alias := "vehicle"; e_key := "assigned_vehicle_id"; e_table := Vehicles; e_cols := cols |}.
Definition responder_embed (cols : list string) : embed :=
  {| e_alias := "responder"; e_key := "assigned_responder_id"; e_table := Users; e_cols := cols |}.

Definition star : selection := {| s_cols := Star; s_embeds := [] |}.

Definition full_alert : selection :=
  {| s_cols := Star;
     s_embeds :=
       [ user_embed ["id"; "first_name"; "last_name"; "email"; "user_phone_number"];
         vehicle_embed ["id"; "license_plate"; "vehicle_type"; "model"];
         responder_embed ["id"; "first_name"; "last_name"; "user_phone_number"] ] |}.

Definition created_alert : selection :=
  {| s_cols := Star;
     s_embeds := [ user_embed ["id"; "first_name"; "last_name"; "email"] ] |}.

Definition assigned_alert : selection :=
  {| s_cols := Star;
     s_embeds :=
       [ vehicle_embed ["id"; "license_plate"; "vehicle_type"; "status"];
         responder_embed ["id"; "first_name"; "last_name"] ] |}.

(** *** [router.get('/')] *)
Definition list_query (req : request) : query :=
  let status := get (req_query req) "status" in
  let alert_type := get (req_query req) "alert_type" in
  let user_id := get (req_query req) "user_id" in
  let q := order "reported_at" false (select full_alert (from Alerts)) in
  let q := if truthy status then eq "status" status q else q in
  let q := if truthy alert_type then eq "alert_type" alert_type q else q in
  if strict_eq (u_role (req_user req)) (VStr "user")
  then eq "user_id" (u_id (req_user req)) q
  else if truthy user_id then eq "user_id" user_id q else q.

Definition list_alerts (req : request) : world -> response * world :=
  try_catch (
    res <- await (list_query req) ;;
    _ <- throw_if (r_error res) ;;
    ret (send (r_data res))).

(** *** [router.get('/:id')] *)
Definition get_alert (req : request) : world -> response * world :=
  try_catch (
    res <- await (single (eq "id" (VStr (req_params_id req)) (select full_alert (from Alerts)))) ;;
    _ <- throw_if (r_error res) ;;
    if negb (data_truthy (r_data res)) then ret (respond 404 "Alert not found")
    else
    if strict_eq (u_role (req_user req)) (VStr "user")
    then
      owner <- prop (r_data res) "user_id" ;;
      if negb (strict_eq owner (u_id (req_user req)))
      then ret (respond 403 "Access denied")
      else ret (send (r_data res))
    else ret (send (r_data res))).

(** *** [router.post('/')] *)
Definition validAlertTypes : list string :=
  ["medical"; "fire"; "accident"; "crime"; "natural_disaster"; "other"].
Definition validSeverities : list string := ["low"; "medium"; "high"; "critical"].

Definition alertData (other : value -> number) (req : request) : M (gmap string value) :=
  let b := req_body req in
  title <- call_trim "title" (get b "title") ;;
  description <- opt_call_trim "description" (get b "description") ;;
  location <- call_trim "location" (get b "location") ;;
  ret (<["user_id" := u_id (req_user req)]>
      (<["alert_type" := get b "alert_type"]>
      (<["severity" := get b "severity"]>
      (<["title" := title]>
      (<["description" := or_else description VNull]>
      (<["location" := location]>
      (<["latitude" := if truthy (get b "latitude")
                       then VNum (parseFloat other (get b "latitude")) else VNull]>
      (<["longitude" := if truthy (get b "longitude")
                        then VNum (parseFloat other (get b "longitude")) else VNull]>
      (<["image_url" := or_else (get b "image_url") VNull]>
      (<["status" := VStr "pending"]> ∅)))))))))).

Definition create_alert (other : value -> number) (req : request) : world -> response * world :=
  try_catch (
    let b := req_body req in
    if negb (truthy (get b "alert_type")) || negb (truthy (get b "severity"))
       || negb (truthy (get b "title")) || negb (truthy (get b "location"))
    then ret (respond 400 "Missing required fields")
    else if negb (includes validAlertTypes (get b "alert_type"))
    then ret (respond 400 "Invalid alert type")
    else if negb (includes validSeverities (get b "severity"))
    then ret (respond 400 "Invalid severity level")
    else
      row <- alertData other req ;;
      res <- await (single (select created_alert (insert row (from Alerts)))) ;;
      _ <- throw_if (r_error res) ;;
      ret {| status := 201; json := Json (r_data res) |}).

(** *** [router.put('/:id')] *)
Definition is_undefined (v : value) : bool :=
  match v with
  | VUndefined => true
  | _ => false
  end.

(** [{ ...req.body, updated_at: now }] with the undefined fields removed *)
Definition put_updateData (now : string) (b : gmap string value) : gmap string value :=
  filter (fun kv => is_undefined kv.2 = false) (<["updated_at" := VStr now]> b).

(** [.eq('id', req.params.id)] *)
Definition alert_by_id (req : request) (q : query) : query :=
  eq "id" (VStr (req_params_id req)) q.

Definition update_alert (req : request) : world -> response * world :=
  try_catch (
    if negb (includes ["admin"; "dispatcher"] (u_role (req_user req)))
    then ret (respond 403 "Access denied")
    else
      now <- toISOString ;;
      let updateData := put_updateData now (req_body req) in
      res <- await (single (select star (alert_by_id req (update updateData (from Alerts))))) ;;
      _ <- throw_if (r_error res) ;;
      if negb (data_truthy (r_data res)) then ret (respond 404 "Alert not found")
      else ret (send (r_data res))).

(** *** [router.patch('/:id/status')] *)
Definition validStatuses : list string := ["pending"; "responding"; "resolved"; "cancelled"].

Definition vehicle_status (v : value) (st : string) : query :=
  eq "id" v (update {[ "status" := VStr st ]} (from Vehicles)).

Definition status_updateData (now : string) (status : value) : gmap string value :=
  <["status" := status]> (<["updated_at" := VStr now]> ∅).

(** [if (status === on && data.assigned_vehicle_id) await vehicles.update({ status: st })] *)
Definition reconcile (status : value) (d : data) (on st : string) : M unit :=
  if strict_eq status (VStr on)
  then
    v <- prop d "assigned_vehicle_id" ;;
    if truthy v then (_ <- await (vehicle_status v st) ;; ret tt) else ret tt
  else ret tt.

Definition set_status (req : request) : world -> response * world :=
  try_catch (
    let status := get (req_body req) "status" in
    if negb (includes validStatuses status)
    then ret (respond 400 "Invalid status")
    else if negb (includes ["admin"; "dispatcher"; "rescuer"] (u_role (req_user req)))
    then ret (respond 403 "Access denied")
    else
      now <- toISOString ;;
      let updateData := status_updateData now status in
      res <- await (single (select star (alert_by_id req (update updateData (from Alerts))))) ;;
      _ <- throw_if (r_error res) ;;
      _ <- reconcile status (r_data res) "responding" "responding" ;;
      _ <- reconcile status (r_data res) "resolved" "available" ;;
      ret (send (r_data res))).

(** *** [router.patch('/:id/assign')] *)
Definition assign_updateData (now : string) (vehicle_id responder_id : value) :
    gmap string value :=
  <["assigned_vehicle_id" := or_else vehicle_id VNull]>
  (<["assigned_responder_id" := or_else responder_id VNull]>
  (<["updated_at" := VStr now]> ∅)).

Definition current_assignment : selection :=
  {| s_cols := Only ["assigned_vehicle_id"]; s_embeds := [] |}.

(** The two vehicle writes that follow the alert write. *)
Definition release_old (old vehicle_id : value) : M unit :=
  if truthy old && negb (strict_eq old vehicle_id)
  then (_ <- await (vehicle_status old "available") ;; ret tt)
  else ret tt.

Definition claim_new (vehicle_id : value) : M unit :=
  if truthy vehicle_id
  then (_ <- await (vehicle_status vehicle_id "assigned") ;; ret tt)
  else ret tt.

Definition assign (req : request) : world -> response * world :=
  try_catch (
    let vehicle_id := get (req_body req) "vehicle_id" in
    let responder_id := get (req_body req) "responder_id" in
    if negb (includes ["admin"; "dispatcher"] (u_role (req_user req)))
    then ret (respond 403 "Access denied")
    else
      cur <- await (single (alert_by_id req (select current_assignment (from Alerts)))) ;;
      _ <- throw_if (r_error cur) ;;
      now <- toISOString ;;
      let updateData := assign_updateData now vehicle_id responder_id in
      upd <- await (single (select assigned_alert
                      (alert_by_id req (update updateData (from Alerts))))) ;;
      _ <- throw_if (r_error upd) ;;
      _ <- release_old (opt_prop (r_data cur) "assigned_vehicle_id") vehicle_id ;;
      _ <- claim_new vehicle_id ;;
      ret (send (r_data upd))).

(** *** [router.delete('/:id')] *)
Definition delete_alert (req : request) : world -> response * world :=
  try_catch (
    if negb (strict_eq (u_role (req_user req)) (VStr "admin"))
    then ret (respond 403 "Access denied. Admin only.")
    else
      res <- await (alert_by_id req (delete (from Alerts))) ;;
      _ <- throw_if (r_error res) ;;
      ret {| status := 200; json := Message "Alert deleted successfully" |}).

End Handler.

(** ** The CORS policy of the server file that lists its origins *)

Module Server.
Import JS Store.

(** [xs.indexOf(v)]: the first index whose element is [===] to [v], or -1. *)
Fixpoint indexOf_from (i : Z) (xs : list value) (v : value) : Z :=
  match xs with
  | [] => -1
  | x :: xs' => if strict_eq x v then i else indexOf_from (i + 1) xs' v
  end.

Definition indexOf (xs : list value) (v : value) : Z := indexOf_from 0 xs v.

(** A regular expression literal is an object. *)
Definition regexp (source : string) : value := VObj [("source", VStr source)].

Definition allowedOrigins : list value :=
  [ VStr "http://192.168.1.29:3000";
    VStr "http://localhost:3000";
    VStr "https://rescuelink-backend-j0gz.onrender.com/api-docs/";
    regexp "\.vercel\.app$" ].

(** [callback(null, true)] or [callback(new Error(...))] *)
Inductive verdict :=
| Allowed
| Rejected (e : error).

(** [corsOptions.origin] *)
Definition origin (o : value) : verdict :=
  if negb (truthy o) then Allowed
  else if negb (indexOf allowedOrigins o =? -1)%Z then Allowed
  else Rejected {| message := "Not allowed by CORS" |}.

End Server.

(** ** Vocabulary of the properties *)

Module Spec.
Import JS Store Handler.

(** The error kinds and the status codes that carry them. *)
Definition BadRequest : Z := 400.
Definition Forbidden : Z := 403.
Definition NotFound : Z := 404.
Definition ServerError : Z := 500.

(** The store refuses the [n]-th query the handler awaits. *)
Definition refused (n : nat) (w : world) : bool :=
  match faults w !! n with
  | Some (Some _) => true
  | _ => false
  end.

(** The world after one awaited query that left the store as [s]. *)
Definition after_call (s : store) (w : world) : world :=
  {| db := s; faults := tail (faults w); clock := clock w |}.

(** The row has the id the request names. *)
Definition named (req : request) (r : gmap string value) : bool :=
  matches [("id", VStr (req_params_id req))] r.

(** [rows] with [d] merged into the rows [req] names. *)
Definition merged (req : request) (d : gmap string value)
    (rows : list (gmap string value)) : list (gmap string value) :=
  (fun r => if named req r then d ∪ r else r) <$> rows.

(** The vehicle rows with [status] set to [st] on the rows whose id is [v]. *)
Definition with_status (v : value) (st : string)
    (rows : list (gmap string value)) : list (gmap string value) :=
  (fun r => if pg_eq (cell r "id") v then <["status" := VStr st]> r else r) <$> rows.

(** The body gives no value for the key: the key is absent, or what it
    holds is null, empty, zero or false. *)
Definition missing (b : gmap string value) (k : string) : Prop :=
  truthy (get b k) = false.

(** A Create payload that must be turned down. *)
Definition unacceptable (b : gmap string value) : Prop :=
  missing b "alert_type" ∨ missing b "severity"
  ∨ missing b "title" ∨ missing b "location"
  ∨ includes validAlertTypes (get b "alert_type") = false
  ∨ includes validSeverities (get b "severity") = false.

(** The row [alertData] builds from a body, given the three trimmed texts. *)
Definition alert_row (other : value -> number) (req : request)
    (title description location : value) :
    gmap string value :=
  let b := req_body req in
  <["user_id" := u_id (req_user req)]>
  (<["alert_type" := get b "alert_type"]>
  (<["severity" := get b "severity"]>
  (<["title" := title]>
  (<["description" := or_else description VNull]>
  (<["location" := location]>
  (<["latitude" := if truthy (get b "latitude")
                   then VNum (parseFloat other (get b "latitude")) else VNull]>
  (<["longitude" := if truthy (get b "longitude")
                    then VNum (parseFloat other (get b "longitude")) else VNull]>
  (<["image_url" := or_else (get b "image_url") VNull]>
  (<["status" := VStr "pending"]> ∅))))))))).

(** The answer of the [catch] block to a thrown [e]. *)
Definition server_error (e : error) : response :=
  respond ServerError (if String.eqb (message e) "" then "Server error" else message e).

(** The ids and the owners of the rows of a table, in order. *)
Definition ids (rows : list (gmap string value)) : list value :=
  (fun r => cell r "id") <$> rows.
Definition owners (rows : list (gmap string value)) : list value :=
  (fun r => cell r "user_id") <$> rows.

(** Two stores with the same alerts and vehicles as far as identity goes:
    the same ids and owners in the same order, the same users, the same
    id sequence. *)
Definition same_identities (s s' : store) : Prop :=
  ids (alerts s') = ids (alerts s)
  ∧ owners (alerts s') = owners (alerts s)
  ∧ ids (vehicles s') = ids (vehicles s)
  ∧ users s' = users s
  ∧ alert_seq s' = alert_seq s.

(** Two stores that differ in the cells of alert rows at most. *)
Definition same_but_alert_cells (s s' : store) : Prop :=
  length (alerts s') = length (alerts s)
  ∧ vehicles s' = vehicles s
  ∧ users s' = users s
  ∧ alert_seq s' = alert_seq s.

(** A program that relates the store it starts from to the store it ends
    with, whatever it answers. *)
Definition keeps {A} (R : store -> store -> Prop) (m : M A) : Prop :=
  forall w, R (db w) (db (m w).2).

(** The store after the vehicle writes of SetStatus to [st] for an alert
    on vehicle [v], when the store accepts them. *)
Definition reconciled (st v : value) (s : store) : store :=
  let s1 := if strict_eq st (VStr "responding") && truthy v
            then set_table Vehicles (with_status v "responding" (vehicles s)) s else s in
  if strict_eq st (VStr "resolved") && truthy v
  then set_table Vehicles (with_status v "available" (vehicles s1)) s1 else s1.

End Spec.

(** ** Sample data *)

Module Sample.
Import JS Store Handler.

Definition alert1 : gmap string value :=
  {[ "id" := int 1; "user_id" := int 5; "status" := VStr "pending";
     "alert_type" := VStr "fire"; "severity" := VStr "high";
     "title" := VStr "Warehouse fire"; "location" := VStr "Pier 4";
     "assigned_vehicle_id" := int 10; "reported_at" := VStr "2024-05-01T10:00:00.000Z" ]}.

Definition alert2 : gmap string value :=
  {[ "id" := int 2; "user_id" := int 6; "status" := VStr "pending";
     "alert_type" := VStr "medical"; "severity" := VStr "low";
     "title" := VStr "Fainting"; "location" := VStr "Market";
     "assigned_vehicle_id" := VNull; "reported_at" := VStr "2024-05-02T08:30:00.000Z" ]}.

Definition vehicle (n : Z) (st : string) : gmap string value :=
  {[ "id" := int n; "status" := VStr st ]}.

Definition store1 : store :=
  {| alerts := [alert1; alert2];
     vehicles := [vehicle 10 "assigned"; vehicle 20 "available"];
     users := [];
     alert_seq := 3 |}.

Definition world1 : world :=
  {| db := store1; faults := []; clock := "2024-05-03T00:00:00.000Z" |}.

Definition caller (n : Z) (r : string) : user := {| u_id := int n; u_role := VStr r |}.

Definition request1 (u : user) (b : gmap string value) : request :=
  {| req_user := u; req_params_id := "1"; req_query := ∅; req_body := b |}.

(** The same store, with a schedule of refusals. *)
Definition timeout : error := {| message := "upstream request timeout" |}.

Definition world_refusing (fs : list (option error)) : world :=
  {| db := store1; faults := fs; clock := "2024-05-03T00:00:00.000Z" |}.

(** An alert whose assigned vehicle has id 0. *)
Definition alert_on_vehicle0 : gmap string value :=
  {[ "id" := int 1; "user_id" := int 5; "status" := VStr "pending";
     "assigned_vehicle_id" := int 0 ]}.

Definition world0 : world :=
  {| db := {| alerts := [alert_on_vehicle0]; vehicles := [vehicle 0 "assigned"];
              users := []; alert_seq := 2 |};
     faults := []; clock := "2024-05-03T00:00:00.000Z" |}.

(** A list request that asks for another user's alerts. *)
Definition list_request (u : user) : request :=
  {| req_user := u; req_params_id := ""; req_query := {[ "user_id" := VStr "6" ]};
     req_body := ∅ |}.

(** Create payloads. *)
Definition report (title : string) (latitude longitude : value) : gmap string value :=
  {[ "alert_type" := VStr "accident"; "severity" := VStr "high";
     "title" := VStr title; "location" := VStr "EDSA Guadalupe, Makati City";
     "latitude" := latitude; "longitude" := longitude ]}.

Definition decimal (n : Z) (d : positive) : number := Fin (Q2Qc (n # d)).

Definition no_text : value -> number := fun _ => NaN.

(** A request on the alert with the given id. *)
Definition request_on (n : string) (u : user) (b : gmap string value) : request :=
  {| req_user := u; req_params_id := n; req_query := ∅; req_body := b |}.

(** A list request with a query string. *)
Definition list_with (u : user) (q : gmap string value) : request :=
  {| req_user := u; req_params_id := ""; req_query := q; req_body := ∅ |}.

(** The rows of an answer ([[]] when the answer carries no rows). *)
Definition rows_of (r : response) : list (gmap string value) :=
  match json r with
  | Json (DRows rs) => rs
  | _ => []
  end.

(** A Create payload that tries to set the owner and the status. *)
Definition forged_report : gmap string value :=
  <["user_id" := int 99]> (<["status" := VStr "resolved"]>
    (report "  Flood on Main Street " VUndefined VUndefined)).

(** A Create payload whose title is a number. *)
Definition numbered_report : gmap string value :=
  {[ "alert_type" := VStr "fire"; "severity" := VStr "low";
     "title" := int 5; "location" := VStr "Pier 4" ]}.

End Sample.

(** ** Properties *)

Import JS Store Handler Spec.

(** Closed equations are settled by evaluating both sides. *)
Ltac evaluate :=
  lazymatch goal with
  | |- ?x = ?y => vm_cast_no_check (@eq_refl _ y)
  end.

#[local] Arguments expand : simpl never.
#[local] Arguments merge_sort : simpl never.
#[local] Arguments sent : simpl never.

(** *** What is sent to the store *)

Lemma property_scalar v : scalar v = true -> property v = Some v.
Proof. by destruct v as [| | |[| |]| | |]. Qed.

Lemma lookup_sent (d : gmap string value) k : sent d !! k = d !! k ≫= property.
Proof. apply lookup_omap. Qed.

Lemma lookup_sent_scalar (d : gmap string value) k v :
  d !! k = Some v -> scalar v = true -> sent d !! k = Some v.
Proof. intros Hk Hv. rewrite lookup_sent, Hk. by apply property_scalar. Qed.

Lemma lookup_sent_None (d : gmap string value) k : d !! k = None -> sent d !! k = None.
Proof. intros Hk. by rewrite lookup_sent, Hk. Qed.

Lemma sent_insert_scalar (d : gmap string value) k v :
  scalar v = true -> sent (<[k := v]> d) = <[k := v]> (sent d).
Proof. intros Hv. apply omap_insert_Some. by apply property_scalar. Qed.

Lemma sent_empty : sent ∅ = ∅.
Proof. apply omap_empty. Qed.

(** *** Running a handler, one awaited query at a time *)

Lemma bind_ok {A B} (m : M A) (k : A -> M B) w a w' :
  m w = (Ok a, w') -> bind m k w = k a w'.
Proof. intros H. unfold bind. by rewrite H. Qed.

Lemma bind_thrown {A B} (m : M A) (k : A -> M B) w e w' :
  m w = (Thrown e, w') -> bind m k w = (Thrown e, w').
Proof. intros H. unfold bind. by rewrite H. Qed.

Lemma await_refused q w :
  refused 0 w = true ->
  exists e, await q w = (Ok (refuse e), after_call (db w) w).
Proof.
  unfold refused, await, after_call. destruct (faults w) as [|[e|] rest]; try done.
  intros _. by exists e.
Qed.

Lemma await_accepted q w :
  refused 0 w = false ->
  await q w = (Ok (exec (clock w) q (db w)).1, after_call (exec (clock w) q (db w)).2 w).
Proof.
  unfold refused, await, after_call.
  destruct (faults w) as [|[e|] rest]; try done; intros _;
    by destruct (exec (clock w) q (db w)).
Qed.

(** *** Create: validation *)

Section Create.
Variable other : value -> number.

(** A key the body does not have is missing. *)
Lemma absent_missing (b : gmap string value) k : b !! k = None -> missing b k.
Proof. intros H. unfold missing, get. by rewrite H. Qed.

(** C5.  A Create payload that misses [alert_type], [severity], [title] or
    [location] (the key is absent, or holds null or the empty string), or
    whose [alert_type] or [severity] is outside its list, is answered
    BadRequest, and the world is left as it was: no query is awaited and no
    alert row is added. *)
Theorem create_rejects_unacceptable req w :
  unacceptable (req_body req) ->
  status (create_alert other req w).1 = BadRequest
  ∧ (create_alert other req w).2 = w.
Proof.
  intros Hbad. unfold create_alert, try_catch.
  destruct (negb (truthy (get (req_body req) "alert_type"))
            || negb (truthy (get (req_body req) "severity"))
            || negb (truthy (get (req_body req) "title"))
            || negb (truthy (get (req_body req) "location"))) eqn:Hreq; [done|].
  destruct (includes validAlertTypes (get (req_body req) "alert_type")) eqn:Hty; [|done].
  destruct (includes validSeverities (get (req_body req) "severity")) eqn:Hsev; [|done].
  exfalso. apply orb_false_elim in Hreq as [Hreq Hloc].
  apply orb_false_elim in Hreq as [Hreq Htitle].
  apply orb_false_elim in Hreq as [Htype Hseverity].
  apply negb_false_iff in Htype, Hseverity, Htitle, Hloc.
  unfold missing in Hbad. destruct Hbad as [H|[H|[H|[H|[H|H]]]]]; congruence.
Qed.

End Create.

(** *** SetStatus: the order of the two gates *)

(** C4 (amended).  For a caller whose role is [user], SetStatus answers
    Forbidden when the requested status is one of the four valid ones and
    BadRequest when it is not (the status is checked before the role); in
    both cases the world is left as it was. *)
Theorem set_status_by_user req w :
  u_role (req_user req) = VStr "user" ->
  (includes validStatuses (get (req_body req) "status") = true ->
     status (set_status req w).1 = Forbidden ∧ (set_status req w).2 = w)
  ∧ (includes validStatuses (get (req_body req) "status") = false ->
     status (set_status req w).1 = BadRequest ∧ (set_status req w).2 = w).
Proof.
  intros Hrole. unfold set_status, try_catch. rewrite Hrole.
  split; intros Hst; rewrite Hst; done.
Qed.

(** *** Get: an id that names no alert *)

Lemma exec_get_missing now req s :
  filter (fun r => named req r = true) (alerts s) = [] ->
  exec now (single (eq "id" (VStr (req_params_id req)) (select full_alert (from Alerts)))) s
  = (refuse not_single, s).
Proof.
  intros Hnone. unfold exec. unfold named in Hnone. cbn in *. by rewrite Hnone.
Qed.

(** C6 (what the code does).  When no alert row has the id the request
    names, Get answers ServerError, not NotFound: [.single()] reports the
    empty result as an error, and the error is thrown before the handler
    looks at [data]. *)
Theorem get_missing_alert_is_server_error req w :
  filter (fun r => named req r = true) (alerts (db w)) = [] ->
  status (get_alert req w).1 = ServerError
  ∧ status (get_alert req w).1 ≠ NotFound.
Proof.
  intros Hnone.
  assert (status (get_alert req w).1 = ServerError) as Hs; [|by rewrite Hs].
  unfold get_alert, try_catch. destruct (refused 0 w) eqn:Hf.
  - destruct (await_refused
      (single (eq "id" (VStr (req_params_id req)) (select full_alert (from Alerts)))) w Hf)
      as [e He].
    by rewrite (bind_ok _ _ _ _ _ He).
  - rewrite (bind_ok _ _ _ _ _ (await_accepted _ w Hf)).
    by rewrite exec_get_missing.
Qed.

(** The NotFound branch of Get is never taken. *)
Lemma get_alert_never_not_found req w : status (get_alert req w).1 ≠ NotFound.
Proof.
  unfold get_alert, try_catch. destruct (refused 0 w) eqn:Hf.
  - destruct (await_refused
      (single (eq "id" (VStr (req_params_id req)) (select full_alert (from Alerts)))) w Hf)
      as [e He].
    by rewrite (bind_ok _ _ _ _ _ He).
  - rewrite (bind_ok _ _ _ _ _ (await_accepted _ w Hf)).
    unfold exec. cbn.
    destruct (expand (db w) full_alert <$> _) as [|r [|r' rest]]; cbn; try done.
    destruct (strict_eq (u_role (req_user req)) (VStr "user")); cbn; [|done].
    by destruct (negb (strict_eq (get r "user_id") (u_id (req_user req)))).
Qed.

(** *** List: a [user] sees their own alerts only *)

Lemma number_eqb_eq a b : number_eqb a b = true -> a = b.
Proof.
  destruct a as [|s|p], b as [|t|q]; cbn; try done.
  - intros H. apply Bool.eqb_prop in H. by subst.
  - intros H. apply bool_decide_eq_true in H. by subst.
Qed.

Lemma pg_eq_number r c n : pg_eq (cell r c) (VNum n) = true -> r !! c = Some (VNum n).
Proof.
  unfold cell. destruct (r !! c) as [[| |b|a|t|xs|fs]|]; cbn; try done.
  intros H. by rewrite (number_eqb_eq _ _ H).
Qed.

Lemma matches_last fs c arg r : matches (fs ++ [(c, arg)]) r = true -> pg_eq (cell r c) arg = true.
Proof.
  unfold matches. rewrite forallb_app. cbn. intros H.
  apply andb_prop in H as [_ H]. by apply andb_prop in H as [H _].
Qed.

Lemma ordered_elem_of o (rows : list (gmap string value)) r : r ∈ ordered o rows -> r ∈ rows.
Proof. destruct o as [o|]; cbn; [|done]. by rewrite merge_sort_Permutation. Qed.

Lemma expand_full_alert_user_id s r : cell (expand s full_alert r) "user_id" = cell r "user_id".
Proof. unfold expand, cell. cbn. by rewrite !lookup_insert_ne. Qed.

Lemma list_query_of_user req :
  u_role (req_user req) = VStr "user" ->
  exists fs,
    list_query req =
      {| q_from := Alerts; q_verb := Select;
         q_filters := fs ++ [("user_id", u_id (req_user req))];
         q_returning := Some full_alert; q_order := Some ("reported_at", false);
         q_single := false |}.
Proof.
  intros Hrole. unfold list_query. rewrite Hrole. cbn.
  destruct (truthy (get (req_query req) "status")),
           (truthy (get (req_query req) "alert_type")); cbn; eauto.
Qed.

(** C3.  When the caller's role is [user], List answers with rows unless
    the store refuses the read, and every row it answers with has the
    caller's id in [user_id], whatever filters the request carries. *)
Theorem list_alerts_of_user_are_own req w :
  u_role (req_user req) = VStr "user" ->
  (refused 0 w = false -> exists rs, (list_alerts req w).1 = send (DRows rs))
  ∧ (forall rs, json (list_alerts req w).1 = Json (DRows rs) ->
       Forall (fun r => pg_eq (cell r "user_id") (u_id (req_user req)) = true) rs)
  ∧ (forall rs n, json (list_alerts req w).1 = Json (DRows rs) ->
       u_id (req_user req) = VNum n ->
       Forall (fun r => r !! "user_id" = Some (VNum n)) rs).
Proof.
  intros Hrole. destruct (list_query_of_user req Hrole) as [fs Hq].
  assert (forall rs, json (list_alerts req w).1 = Json (DRows rs) ->
            Forall (fun r => pg_eq (cell r "user_id") (u_id (req_user req)) = true) rs) as Hown.
  { intros rs. unfold list_alerts, try_catch. destruct (refused 0 w) eqn:Hf.
    - destruct (await_refused (list_query req) w Hf) as [e He].
      by rewrite (bind_ok _ _ _ _ _ He).
    - rewrite (bind_ok _ _ _ _ _ (await_accepted _ w Hf)), Hq.
      unfold exec. cbn. intros [= <-].
      apply Forall_fmap, Forall_forall. intros r Hr. cbn.
      rewrite expand_full_alert_user_id.
      apply (ordered_elem_of (Some _)) in Hr.
      apply list_elem_of_filter in Hr as [Hr _].
      by apply matches_last in Hr. }
  split; [|split; [done|]].
  - intros Hf. unfold list_alerts, try_catch.
    rewrite (bind_ok _ _ _ _ _ (await_accepted _ w Hf)), Hq.
    unfold exec. cbn. eauto.
  - intros rs n Hrs Hid. specialize (Hown rs Hrs). rewrite Hid in Hown.
    eapply Forall_impl; [done|]. intros r. apply pg_eq_number.
Qed.

(** *** Writes: what the store does with them *)

Lemma expand_star s r : expand s star r = r.
Proof. done. Qed.

Lemma refused_after_call n s w : refused n (after_call s w) = refused (S n) w.
Proof. unfold refused, after_call. cbn. by destruct (faults w). Qed.

(** An update of the one alert row the request names, read back with
    [.select(sel).single()]. *)
Lemma exec_update_named now req d sel s r0 :
  filter (fun r => named req r = true) (alerts s) = [r0] ->
  exec now (single (select sel (alert_by_id req (update d (from Alerts))))) s
  = (answer (DRow (expand (set_table Alerts (merged req (sent d) (alerts s)) s) sel
                     (sent d ∪ r0))),
     set_table Alerts (merged req (sent d) (alerts s)) s).
Proof.
  intros Hone. unfold exec, alert_by_id, commit, returning, named in *. cbn in *.
  rewrite Hone. cbn.
  replace ((fun r => if decide (pg_eq (cell r "id") (VStr (req_params_id req)) && true = true)
                     then sent d ∪ r else r) <$> alerts s)
    with (merged req (sent d) (alerts s)); [done|].
  unfold merged, named. apply list_fmap_ext. intros _ r _. cbn.
  by destruct (pg_eq (cell r "id") (VStr (req_params_id req))).
Qed.

(** A vehicle status write: no rows are read back, every vehicle row with
    the id gets the status. *)
Lemma exec_vehicle_status now v st s :
  exec now (vehicle_status v st) s
  = (answer DNull, set_table Vehicles (with_status v st (vehicles s)) s).
Proof.
  unfold exec, vehicle_status, commit, returning. cbn.
  do 2 f_equal. unfold with_status. apply list_fmap_ext. intros _ r _. cbn.
  rewrite andb_true_r. destruct (pg_eq (cell r "id") v); cbn; [|done].
  by rewrite insert_union_singleton_l.
Qed.

Lemma await_vehicle_status v st w :
  exists res,
    await (vehicle_status v st) w
    = (Ok res,
       after_call (if refused 0 w then db w
                   else set_table Vehicles (with_status v st (vehicles (db w))) (db w)) w).
Proof.
  destruct (refused 0 w) eqn:Hf.
  - destruct (await_refused (vehicle_status v st) w Hf) as [e He]. eauto.
  - rewrite (await_accepted _ w Hf), exec_vehicle_status. eauto.
Qed.

Lemma with_status_sets v st rows :
  Forall (fun r => pg_eq (cell r "id") v = true -> r !! "status" = Some (VStr st))
         (with_status v st rows).
Proof.
  unfold with_status. apply Forall_fmap, Forall_forall. intros r _. cbn.
  destruct (pg_eq (cell r "id") v) eqn:Hid.
  - intros _. apply lookup_insert_eq.
  - unfold cell in *. by rewrite Hid.
Qed.

(** *** SetStatus: the run after the two gates *)

Lemma reconcile_row st r on s w :
  reconcile st (DRow r) on s w
  = (Ok tt,
     if strict_eq st (VStr on) && truthy (get r "assigned_vehicle_id")
     then (await (vehicle_status (get r "assigned_vehicle_id") s) w).2 else w).
Proof.
  unfold reconcile. destruct (strict_eq st (VStr on)); cbn; [|done].
  unfold bind. cbn. destruct (truthy (get r "assigned_vehicle_id")); [|done].
  destruct (await_vehicle_status (get r "assigned_vehicle_id") s w) as [res ->]. done.
Qed.

Lemma status_updateData_keeps now st (r0 : gmap string value) k :
  k ≠ "status" -> k ≠ "updated_at" -> (status_updateData now st ∪ r0) !! k = r0 !! k.
Proof.
  intros H1 H2. apply lookup_union_r. unfold status_updateData.
  by rewrite !lookup_insert_ne.
Qed.

Lemma includes_scalar lits v : includes lits v = true -> scalar v = true.
Proof.
  unfold includes. intros Hin. apply existsb_exists in Hin as (l & _ & Heq).
  by destruct v.
Qed.

Lemma sent_status_updateData now st :
  scalar st = true -> sent (status_updateData now st) = status_updateData now st.
Proof.
  intros Hst. unfold status_updateData.
  by rewrite !sent_insert_scalar, sent_empty.
Qed.

Lemma set_status_run req w r0 :
  includes validStatuses (get (req_body req) "status") = true ->
  includes ["admin"; "dispatcher"; "rescuer"] (u_role (req_user req)) = true ->
  refused 0 w = false ->
  filter (fun r => named req r = true) (alerts (db w)) = [r0] ->
  let st := get (req_body req) "status" in
  let d := status_updateData (clock w) st in
  let v := get r0 "assigned_vehicle_id" in
  let w1 := after_call (set_table Alerts (merged req d (alerts (db w))) (db w)) w in
  let w2 := if strict_eq st (VStr "responding") && truthy v
            then (await (vehicle_status v "responding") w1).2 else w1 in
  let w3 := if strict_eq st (VStr "resolved") && truthy v
            then (await (vehicle_status v "available") w2).2 else w2 in
  set_status req w = (send (DRow (d ∪ r0)), w3).
Proof.
  intros Hst Hrole Hf Hone. cbn zeta. unfold set_status, try_catch.
  rewrite Hst, Hrole. cbn [negb].
  unfold toISOString at 1. unfold bind at 1.
  rewrite (bind_ok _ _ _ _ _ (await_accepted _ w Hf)).
  rewrite (exec_update_named _ _ _ _ _ _ Hone), expand_star.
  rewrite (sent_status_updateData _ _ (includes_scalar _ _ Hst)).
  cbn [fst snd r_error r_data answer].
  unfold throw_if, ret at 1. unfold bind at 1.
  rewrite (bind_ok _ _ _ _ _ (reconcile_row _ _ _ _ _)).
  rewrite (bind_ok _ _ _ _ _ (reconcile_row _ _ _ _ _)).
  unfold get. rewrite status_updateData_keeps by done. done.
Qed.

Lemma await_vehicle_status_world v st w :
  (await (vehicle_status v st) w).2
  = after_call (if refused 0 w then db w
                else set_table Vehicles (with_status v st (vehicles (db w))) (db w)) w.
Proof. by destruct (await_vehicle_status v st w) as [res ->]. Qed.

(** *** Assign: the run after the role gate *)

Lemma exec_read_assignment now req s r0 :
  filter (fun r => named req r = true) (alerts s) = [r0] ->
  exec now (single (alert_by_id req (select current_assignment (from Alerts)))) s
  = (answer (DRow (project (Only ["assigned_vehicle_id"]) r0)), s).
Proof.
  intros Hone. unfold exec, alert_by_id, returning, named in *. cbn in *.
  by rewrite Hone.
Qed.

Lemma get_project cs (r : gmap string value) k :
  k ∈ cs -> get (project (Only cs) r) k = get r k.
Proof.
  intros Hk. unfold get, project. destruct (r !! k) as [v|] eqn:Hr.
  - by rewrite (map_lookup_filter_Some_2 _ _ _ _ Hr).
  - rewrite (proj2 (map_lookup_filter_None _ _ _)); [done|]. by left.
Qed.

Lemma release_old_world old vid w :
  release_old old vid w
  = (Ok tt, if truthy old && negb (strict_eq old vid)
            then (await (vehicle_status old "available") w).2 else w).
Proof.
  unfold release_old. destruct (truthy old && negb (strict_eq old vid)); [|done].
  unfold bind. by destruct (await_vehicle_status old "available" w) as [res ->].
Qed.

Lemma claim_new_world vid w :
  claim_new vid w
  = (Ok tt, if truthy vid then (await (vehicle_status vid "assigned") w).2 else w).
Proof.
  unfold claim_new. destruct (truthy vid); [|done].
  unfold bind. by destruct (await_vehicle_status vid "assigned" w) as [res ->].
Qed.

Lemma property_or_else v : property (or_else v VNull) = Some (stringified (or_else v VNull)).
Proof. unfold or_else. destruct (truthy v) eqn:Hv; [|done]. by destruct v. Qed.

Lemma lookup_sent_assign_vehicle now vid rid :
  sent (assign_updateData now vid rid) !! "assigned_vehicle_id"
  = Some (stringified (or_else vid VNull)).
Proof.
  unfold assign_updateData. by rewrite lookup_sent, lookup_insert_eq, <- property_or_else.
Qed.

Lemma lookup_sent_assign_responder now vid rid :
  sent (assign_updateData now vid rid) !! "assigned_responder_id"
  = Some (stringified (or_else rid VNull)).
Proof.
  unfold assign_updateData. rewrite lookup_sent, lookup_insert_ne by done.
  by rewrite lookup_insert_eq, <- property_or_else.
Qed.

Lemma assign_run req w r0 :
  includes ["admin"; "dispatcher"] (u_role (req_user req)) = true ->
  refused 0 w = false ->
  refused 1 w = false ->
  filter (fun r => named req r = true) (alerts (db w)) = [r0] ->
  let vid := get (req_body req) "vehicle_id" in
  let d := sent (assign_updateData (clock w) vid (get (req_body req) "responder_id")) in
  let old := get r0 "assigned_vehicle_id" in
  let s2 := set_table Alerts (merged req d (alerts (db w))) (db w) in
  let w2 := after_call s2 (after_call (db w) w) in
  let w3 := if truthy old && negb (strict_eq old vid)
            then (await (vehicle_status old "available") w2).2 else w2 in
  let w4 := if truthy vid then (await (vehicle_status vid "assigned") w3).2 else w3 in
  assign req w = (send (DRow (expand s2 assigned_alert (d ∪ r0))), w4).
Proof.
  intros Hrole Hf0 Hf1 Hone. cbn zeta. unfold assign, try_catch.
  rewrite Hrole. cbn [negb].
  rewrite (bind_ok _ _ _ _ _ (await_accepted _ w Hf0)).
  rewrite (exec_read_assignment _ _ _ _ Hone). cbn [fst snd r_error r_data answer].
  unfold throw_if at 1, ret at 1. unfold bind at 1.
  unfold toISOString at 1. unfold bind at 1. cbn [clock after_call].
  assert (refused 0 (after_call (db w) w) = false) as Hf1'
    by (by rewrite refused_after_call).
  rewrite (bind_ok _ _ _ _ _ (await_accepted _ _ Hf1')). cbn [db clock after_call].
  rewrite (exec_update_named _ _ _ _ _ _ Hone). cbn [fst snd r_error r_data answer].
  unfold throw_if, ret at 1. unfold bind at 1.
  rewrite (bind_ok _ _ _ _ _ (release_old_world _ _ _)).
  rewrite (bind_ok _ _ _ _ _ (claim_new_world _ _)).
  unfold opt_prop. rewrite get_project by set_solver. done.
Qed.

Lemma alerts_after_vehicle_status v st w :
  alerts (db (await (vehicle_status v st) w).2) = alerts (db w).
Proof. rewrite await_vehicle_status_world. cbn. by destruct (refused 0 w). Qed.

Lemma vehicles_after_vehicle_status v st w :
  refused 0 w = false ->
  vehicles (db (await (vehicle_status v st) w).2) = with_status v st (vehicles (db w)).
Proof. intros Hf. rewrite await_vehicle_status_world, Hf. done. Qed.

(** C2 (amended).  A SetStatus call that passes the two gates, on the one
    alert the request names, with the store accepting the alert write,
    succeeds.  If that alert's [assigned_vehicle_id] is truthy (neither
    null nor zero): for [responding] the handler then awaits the write of
    status [responding] on that vehicle, and for [resolved] the write of
    status [available]; unless the store refuses it, the vehicle rows with
    that id then carry the status.  For [pending] and [cancelled], and when
    [assigned_vehicle_id] is not truthy, no further query is awaited and
    the vehicle table is what it was. *)
Theorem set_status_reconciles_vehicle req w r0 :
  includes validStatuses (get (req_body req) "status") = true ->
  includes ["admin"; "dispatcher"; "rescuer"] (u_role (req_user req)) = true ->
  refused 0 w = false ->
  filter (fun r => named req r = true) (alerts (db w)) = [r0] ->
  let st := get (req_body req) "status" in
  let d := status_updateData (clock w) st in
  let v := get r0 "assigned_vehicle_id" in
  let w1 := after_call (set_table Alerts (merged req d (alerts (db w))) (db w)) w in
  (set_status req w).1 = send (DRow (d ∪ r0))
  ∧ (st = VStr "responding" -> truthy v = true ->
       (set_status req w).2 = (await (vehicle_status v "responding") w1).2
       ∧ (refused 1 w = false ->
            vehicles (db (set_status req w).2) = with_status v "responding" (vehicles (db w))))
  ∧ (st = VStr "resolved" -> truthy v = true ->
       (set_status req w).2 = (await (vehicle_status v "available") w1).2
       ∧ (refused 1 w = false ->
            vehicles (db (set_status req w).2) = with_status v "available" (vehicles (db w))))
  ∧ (st = VStr "pending" ∨ st = VStr "cancelled" ∨ truthy v = false ->
       (set_status req w).2 = w1
       ∧ vehicles (db (set_status req w).2) = vehicles (db w)).
Proof.
  intros Hst Hrole Hf Hone. cbn zeta.
  rewrite (set_status_run req w r0 Hst Hrole Hf Hone). cbn [fst snd].
  split; [done|]. split; [|split].
  - intros -> ->. cbn. split; [done|]. intros Hf1.
    rewrite vehicles_after_vehicle_status; [done|]. by rewrite refused_after_call.
  - intros -> ->. cbn. split; [done|]. intros Hf1.
    rewrite vehicles_after_vehicle_status; [done|]. by rewrite refused_after_call.
  - intros [-> | [-> | ->]]; cbn; rewrite ?andb_false_r; done.
Qed.

(** C7.  On the one alert the request names, once the alert write of
    SetStatus or of Assign is accepted by the store, the answer is 200 with
    the updated alert and the alert table is the one that write produced,
    whatever the schedule says about the vehicle writes that follow. *)
Theorem secondary_writes_never_surface req w r0 :
  refused 0 w = false ->
  filter (fun r => named req r = true) (alerts (db w)) = [r0] ->
  (includes validStatuses (get (req_body req) "status") = true ->
   includes ["admin"; "dispatcher"; "rescuer"] (u_role (req_user req)) = true ->
     let d := status_updateData (clock w) (get (req_body req) "status") in
     (set_status req w).1 = send (DRow (d ∪ r0))
     ∧ alerts (db (set_status req w).2) = merged req d (alerts (db w)))
  ∧ (includes ["admin"; "dispatcher"] (u_role (req_user req)) = true ->
     refused 1 w = false ->
     let d := sent (assign_updateData (clock w) (get (req_body req) "vehicle_id")
                (get (req_body req) "responder_id")) in
     let s2 := set_table Alerts (merged req d (alerts (db w))) (db w) in
     (assign req w).1 = send (DRow (expand s2 assigned_alert (d ∪ r0)))
     ∧ alerts (db (assign req w).2) = merged req d (alerts (db w))).
Proof.
  intros Hf Hone. split.
  - intros Hst Hrole. cbn zeta.
    rewrite (set_status_run req w r0 Hst Hrole Hf Hone). cbn [fst snd].
    split; [done|].
    repeat (case_match; rewrite ?alerts_after_vehicle_status); done.
  - intros Hrole Hf1. cbn zeta.
    rewrite (assign_run req w r0 Hrole Hf Hf1 Hone). cbn [fst snd].
    split; [done|].
    repeat (case_match; rewrite ?alerts_after_vehicle_status); done.
Qed.

(** *** Assign: replacing the vehicle *)

Lemma pg_eq_int (a b : Z) : pg_eq (int a) (int b) = bool_decide (a = b).
Proof.
  cbn. apply bool_decide_ext. split; [apply Z2Qc_inj | by intros ->].
Qed.

Lemma truthy_int (a : Z) : a ≠ 0%Z -> truthy (int a) = true.
Proof.
  intros Ha. cbn. apply negb_true_iff, bool_decide_eq_false.
  intros H. by apply Z2Qc_inj in H.
Qed.

Lemma strict_eq_int (a b : Z) : a ≠ b -> strict_eq (int a) (int b) = false.
Proof.
  intros Hab. cbn. apply bool_decide_eq_false. intros H. by apply Z2Qc_inj in H.
Qed.

Lemma cell_lookup (r : gmap string value) c v : r !! c = Some v -> cell r c = v.
Proof. intros H. unfold cell. by rewrite H. Qed.

Lemma with_status_other (a b : Z) st rows :
  a ≠ b ->
  Forall (fun r => r !! "id" = Some (int a) -> r !! "status" = Some (VStr st)) rows ->
  Forall (fun r => r !! "id" = Some (int a) -> r !! "status" = Some (VStr st))
         (with_status (int b) "assigned" rows).
Proof.
  intros Hab Hrows. unfold with_status. apply Forall_fmap.
  eapply Forall_impl; [done|]. intros r Hr. cbn.
  destruct (pg_eq (cell r "id") (int b)) eqn:Hb; [|done].
  rewrite lookup_insert_ne by done. intros Hid.
  rewrite (cell_lookup _ _ _ Hid), pg_eq_int in Hb.
  by apply bool_decide_eq_true in Hb.
Qed.

Lemma with_status_sets_int (a : Z) st rows :
  Forall (fun r => r !! "id" = Some (int a) -> r !! "status" = Some (VStr st))
         (with_status (int a) st rows).
Proof.
  eapply Forall_impl; [apply with_status_sets|]. intros r Hr Hid. apply Hr.
  rewrite (cell_lookup _ _ _ Hid), pg_eq_int. by apply bool_decide_eq_true.
Qed.

(** C1 (amended).  Assign by an admin or a dispatcher, on the one alert
    the request names, whose [assigned_vehicle_id] is the number [a], with
    the number [b] as [vehicle_id], where [a], [b] are different and
    neither is zero, and with the store accepting the read and the write of
    the alert: the answer is 200 and the alert row carries [b] in
    [assigned_vehicle_id].  When the store also accepts the two vehicle
    writes, the vehicle rows with id [a] have status [available] and those
    with id [b] have status [assigned]. *)
Theorem assign_replaces_vehicle req w r0 (a b : Z) :
  u_role (req_user req) = VStr "admin" ∨ u_role (req_user req) = VStr "dispatcher" ->
  refused 0 w = false ->
  refused 1 w = false ->
  filter (fun r => named req r = true) (alerts (db w)) = [r0] ->
  get r0 "assigned_vehicle_id" = int a ->
  get (req_body req) "vehicle_id" = int b ->
  a ≠ b -> a ≠ 0%Z -> b ≠ 0%Z ->
  let d := sent (assign_updateData (clock w) (int b) (get (req_body req) "responder_id")) in
  status (assign req w).1 = 200%Z
  ∧ alerts (db (assign req w).2) = merged req d (alerts (db w))
  ∧ (d ∪ r0) !! "assigned_vehicle_id" = Some (int b)
  ∧ (refused 2 w = false -> refused 3 w = false ->
       vehicles (db (assign req w).2)
       = with_status (int b) "assigned" (with_status (int a) "available" (vehicles (db w)))
       ∧ Forall (fun r =>
                   (r !! "id" = Some (int a) -> r !! "status" = Some (VStr "available"))
                   ∧ (r !! "id" = Some (int b) -> r !! "status" = Some (VStr "assigned")))
                (vehicles (db (assign req w).2))).
Proof.
  intros Hrole Hf0 Hf1 Hone Hold Hnew Hab Ha Hb. cbn zeta.
  assert (includes ["admin"; "dispatcher"] (u_role (req_user req)) = true) as Hinc
    by (by destruct Hrole as [-> | ->]).
  rewrite (assign_run req w r0 Hinc Hf0 Hf1 Hone), Hold, Hnew. cbn [fst snd].
  rewrite (truthy_int a Ha), (truthy_int b Hb), (strict_eq_int a b Hab). cbn [andb negb].
  split; [done|]. split; [by rewrite !alerts_after_vehicle_status|].
  split.
  { apply lookup_union_Some_l. rewrite lookup_sent_assign_vehicle. unfold or_else.
    by rewrite (truthy_int b Hb). }
  intros Hf2 Hf3.
  assert (vehicles (db (await (vehicle_status (int b) "assigned")
            (await (vehicle_status (int a) "available")
               (after_call (set_table Alerts
                    (merged req (sent (assign_updateData (clock w) (int b)
                                   (get (req_body req) "responder_id"))) (alerts (db w)))
                    (db w)) (after_call (db w) w))).2).2)
          = with_status (int b) "assigned"
              (with_status (int a) "available" (vehicles (db w)))) as ->.
  { rewrite vehicles_after_vehicle_status.
    - rewrite vehicles_after_vehicle_status; [done|]. by rewrite !refused_after_call.
    - rewrite await_vehicle_status_world. by rewrite !refused_after_call. }
  split; [done|]. apply Forall_and. split.
  - apply with_status_other; [done|]. apply with_status_sets_int.
  - apply with_status_sets_int.
Qed.

(** *** Update: the body goes to the row as it is *)

Lemma put_updateData_lookup now (b : gmap string value) k v :
  b !! k = Some v -> v ≠ VUndefined -> k ≠ "updated_at" ->
  put_updateData now b !! k = Some v.
Proof.
  intros Hk Hv Hne. unfold put_updateData. apply map_lookup_filter_Some_2.
  - by rewrite lookup_insert_ne.
  - cbn. by destruct v.
Qed.

Lemma put_updateData_clock now (b : gmap string value) :
  put_updateData now b !! "updated_at" = Some (VStr now).
Proof.
  unfold put_updateData. apply map_lookup_filter_Some_2; [apply lookup_insert_eq|done].
Qed.

Lemma put_updateData_absent now (b : gmap string value) k :
  b !! k = None -> k ≠ "updated_at" -> put_updateData now b !! k = None.
Proof.
  intros Hk Hne. unfold put_updateData. apply map_lookup_filter_None. left.
  by rewrite lookup_insert_ne.
Qed.

(** C9 (amended).  Update by an admin or a dispatcher, on the one alert
    the request names, with the store accepting the write: the answer is
    200 with the new row; every key of the body other than [updated_at] is
    in the new row with the value the body gives it as JSON carries that
    value, with no check of the value: as it is when it is null, a
    boolean, a string or a finite number, and in general as
    [JSON.stringify] writes it (null for a number that is not finite);
    [updated_at] is the time of the call; a column the body does not name
    keeps its cell; the vehicle table is what it was. *)
Theorem update_writes_body req w r0 :
  u_role (req_user req) = VStr "admin" ∨ u_role (req_user req) = VStr "dispatcher" ->
  refused 0 w = false ->
  filter (fun r => named req r = true) (alerts (db w)) = [r0] ->
  let d := sent (put_updateData (clock w) (req_body req)) in
  (update_alert req w).1 = send (DRow (d ∪ r0))
  ∧ alerts (db (update_alert req w).2) = merged req d (alerts (db w))
  ∧ vehicles (db (update_alert req w).2) = vehicles (db w)
  ∧ (forall k v, req_body req !! k = Some v -> v ≠ VUndefined -> k ≠ "updated_at" ->
       (d ∪ r0) !! k = Some (stringified v))
  ∧ (forall k v, req_body req !! k = Some v -> scalar v = true -> k ≠ "updated_at" ->
       (d ∪ r0) !! k = Some v)
  ∧ (d ∪ r0) !! "updated_at" = Some (VStr (clock w))
  ∧ (forall k, req_body req !! k = None -> k ≠ "updated_at" -> (d ∪ r0) !! k = r0 !! k).
Proof.
  intros Hrole Hf Hone. cbn zeta.
  assert (update_alert req w
          = (send (DRow (sent (put_updateData (clock w) (req_body req)) ∪ r0)),
             after_call (set_table Alerts
               (merged req (sent (put_updateData (clock w) (req_body req))) (alerts (db w)))
               (db w)) w)) as ->.
  { unfold update_alert, try_catch.
    replace (includes ["admin"; "dispatcher"] (u_role (req_user req))) with true
      by (by destruct Hrole as [-> | ->]).
    cbn [negb]. unfold toISOString at 1. unfold bind at 1.
    rewrite (bind_ok _ _ _ _ _ (await_accepted _ w Hf)).
    by rewrite (exec_update_named _ _ _ _ _ _ Hone), expand_star. }
  cbn [fst snd]. split_and!; [done..| | | |].
  - intros k v Hk Hv Hne. apply lookup_union_Some_l.
    rewrite lookup_sent, (put_updateData_lookup _ _ _ _ Hk Hv Hne). by destruct v.
  - intros k v Hk Hv Hne. apply lookup_union_Some_l.
    apply lookup_sent_scalar; [|done].
    apply put_updateData_lookup; [done| |done]. by destruct v.
  - apply lookup_union_Some_l. by rewrite lookup_sent, put_updateData_clock.
  - intros k Hk Hne. apply lookup_union_r, lookup_sent_None.
    by apply put_updateData_absent.
Qed.

(** *** Create: the row that is stored *)

Lemma exec_insert_alert now row s :
  let r := sent row ∪ defaults Alerts now s in
  let s' := next_seq Alerts (set_table Alerts (alerts s ++ [r]) s) in
  exec now (single (select created_alert (insert row (from Alerts)))) s
  = (answer (DRow (expand s' created_alert r)), s').
Proof. done. Qed.

Lemma call_trim_inv name v w x w' :
  call_trim name v w = (Ok x, w') -> w' = w ∧ exists s, v = VStr s ∧ x = VStr (trim s).
Proof. destruct v; cbn; intros [= <- <-]; eauto. Qed.

Lemma call_trim_world name v w x w' :
  call_trim name v w = (x, w') -> w' = w.
Proof. destruct v; cbn; intros H; by injection H as _ <-. Qed.

Lemma opt_call_trim_world name v w x w' :
  opt_call_trim name v w = (x, w') -> w' = w.
Proof. destruct v; cbn; intros H; by injection H as _ <-. Qed.

Section CreateRow.
Variable other : value -> number.

Lemma alertData_ok req w row w' :
  alertData other req w = (Ok row, w') ->
  w' = w ∧ exists t description l,
    get (req_body req) "title" = VStr t ∧ get (req_body req) "location" = VStr l
    ∧ row = alert_row other req (VStr (trim t)) description (VStr (trim l)).
Proof.
  unfold alertData, bind.
  destruct (call_trim "title" _ w) as [[t|e] w1] eqn:Ht; [|done].
  apply call_trim_inv in Ht as [-> (t' & Ht & ->)].
  destruct (opt_call_trim "description" _ w) as [[d|e] w2] eqn:Hd; [|done].
  apply opt_call_trim_world in Hd as ->.
  destruct (call_trim "location" _ w) as [[l|e] w3] eqn:Hl; [|done].
  apply call_trim_inv in Hl as [-> (l' & Hl & ->)].
  cbn. intros [= <- <-]. split; [done|]. by exists t', d, l'.
Qed.

Lemma alertData_world req w o w' : alertData other req w = (o, w') -> w' = w.
Proof.
  unfold alertData, bind.
  destruct (call_trim "title" _ w) as [[t|e] w1] eqn:Ht;
    apply call_trim_world in Ht as ->; [|by intros [= _ <-] | done..].
  destruct (opt_call_trim "description" _ w) as [[d|e] w2] eqn:Hd;
    apply opt_call_trim_world in Hd as ->; [|by intros [= _ <-]].
  destruct (call_trim "location" _ w) as [[l|e] w3] eqn:Hl;
    apply call_trim_world in Hl as ->; [|by intros [= _ <-] | done..].
  cbn. by intros [= _ <-].
Qed.

(** A Create call answers 201 only after it has added exactly the row of
    [alertData], with the cells the store fills in. *)
Lemma create_alert_created req w :
  status (create_alert other req w).1 = 201%Z ->
  exists row,
    alertData other req w = (Ok row, w)
    ∧ alerts (db (create_alert other req w).2)
      = (alerts (db w) ++ [sent row ∪ defaults Alerts (clock w) (db w)])%list.
Proof.
  unfold create_alert, try_catch.
  destruct (_ || _ || _ || _); [done|].
  destruct (includes validAlertTypes _); [|done].
  destruct (includes validSeverities _); [|done]. cbn [negb].
  destruct (alertData other req w) as [[row|e] w1] eqn:Hrow.
  - pose proof (alertData_world _ _ _ _ Hrow) as ->.
    rewrite (bind_ok _ _ _ _ _ Hrow). destruct (refused 0 w) eqn:Hf.
    + destruct (await_refused (single (select created_alert (insert row (from Alerts)))) w Hf)
        as [e He].
      by rewrite (bind_ok _ _ _ _ _ He).
    + rewrite (bind_ok _ _ _ _ _ (await_accepted _ w Hf)), exec_insert_alert.
      intros _. by exists row.
  - rewrite (bind_thrown _ _ _ _ _ Hrow). cbn. by destruct (String.eqb (message e) "").
Qed.

End CreateRow.

Lemma includes_truthy lits v :
  Forall (fun l => l ≠ "") lits -> includes lits v = true -> truthy v = true.
Proof.
  intros Hlits Hin. unfold includes in Hin. apply existsb_exists in Hin as (l & Hl & Heq).
  destruct v; try done. cbn in *. apply String.eqb_eq in Heq as <-.
  apply negb_true_iff, String.eqb_neq.
  rewrite Forall_forall in Hlits. apply Hlits. by apply list_elem_of_In.
Qed.

Lemma number_truthy_nonzero n : n ≠ NaN -> n ≠ Fin (Qc_of_Z 0) -> number_truthy n = true.
Proof.
  destruct n as [|s|q]; cbn; try done. intros _ Hq.
  apply negb_true_iff, bool_decide_eq_false. congruence.
Qed.

Section CreateStored.
Variable other : value -> number.

(** C10 (amended).  When Create answers 201 it has added one alert row.
    In that row [latitude] is null when the payload's [latitude] is the
    number zero, is the payload's number itself when that is any other
    finite number, and is null when that is an infinite number (JSON
    [1e999]), which [JSON.stringify] writes as null; whatever the payload
    holds, the cell is null or a finite number.  The same holds of
    [longitude]. *)
Theorem create_stores_coordinates req w :
  status (create_alert other req w).1 = 201%Z ->
  exists r,
    alerts (db (create_alert other req w).2) = (alerts (db w) ++ [r])%list
    ∧ forall c, c = "latitude" ∨ c = "longitude" ->
        (get (req_body req) c = int 0 -> r !! c = Some VNull)
        ∧ (forall q, get (req_body req) c = VNum (Fin q) -> q ≠ Qc_of_Z 0 ->
             r !! c = Some (VNum (Fin q)))
        ∧ (forall s, get (req_body req) c = VNum (Infinity s) -> r !! c = Some VNull)
        ∧ (r !! c = Some VNull ∨ exists q, r !! c = Some (VNum (Fin q))).
Proof.
  intros Hcreated.
  destruct (create_alert_created other req w Hcreated) as (row & Hrow & Halerts).
  apply alertData_ok in Hrow as [_ (t & d & l & _ & _ & ->)].
  eexists. split; [exact Halerts|].
  intros c Hc.
  assert ((sent (alert_row other req (VStr (trim t)) d (VStr (trim l)))
             ∪ defaults Alerts (clock w) (db w)) !! c
          = property (if truthy (get (req_body req) c)
                      then VNum (parseFloat other (get (req_body req) c)) else VNull))
    as ->.
  { rewrite lookup_union_l by (by destruct Hc as [-> | ->]).
    rewrite lookup_sent. unfold alert_row.
    destruct Hc as [-> | ->]; repeat (rewrite lookup_insert_ne by done);
      by rewrite lookup_insert_eq. }
  split_and!.
  - by intros ->.
  - intros q -> Hq. cbn [truthy parseFloat].
    by rewrite (number_truthy_nonzero (Fin q)) by congruence.
  - by intros s ->.
  - destruct (truthy (get (req_body req) c)); [|by left].
    destruct (parseFloat other (get (req_body req) c)) as [|s|q]; cbn; eauto.
Qed.


End CreateStored.

(** ** The properties on the sample data *)

Import Sample.

Lemma create_rejects_unacceptable_witness :
  let req := request1 (caller 5 "user") {[ "title" := VStr "Smoke"; "severity" := VStr "high" ]} in
  status (create_alert no_text req world1).1 = BadRequest
  ∧ (create_alert no_text req world1).2 = world1.
Proof.
  apply (create_rejects_unacceptable no_text). left. unfold missing. evaluate.
Defined.

Lemma set_status_by_user_witness :
  let req := request1 (caller 5 "user") {[ "status" := VStr "resolved" ]} in
  (includes validStatuses (get (req_body req) "status") = true ->
     status (set_status req world1).1 = Forbidden ∧ (set_status req world1).2 = world1)
  ∧ (includes validStatuses (get (req_body req) "status") = false ->
     status (set_status req world1).1 = BadRequest ∧ (set_status req world1).2 = world1).
Proof.
  apply (set_status_by_user (request1 (caller 5 "user") {[ "status" := VStr "resolved" ]}) world1).
  evaluate.
Defined.

(** C4 fails as stated: a [user] who asks for a status outside the four
    valid ones is answered BadRequest, not Forbidden. *)
Lemma set_status_by_user_invalid_status :
  let req := request1 (caller 5 "user") {[ "status" := VStr "archived" ]} in
  u_role (req_user req) = VStr "user"
  ∧ status (set_status req world1).1 = BadRequest
  ∧ status (set_status req world1).1 ≠ Forbidden.
Proof. by vm_compute. Defined.

Lemma get_missing_alert_is_server_error_witness :
  let req := {| req_user := caller 7 "dispatcher"; req_params_id := "999";
                req_query := ∅; req_body := ∅ |} in
  status (get_alert req world1).1 = ServerError
  ∧ status (get_alert req world1).1 ≠ NotFound.
Proof.
  apply (get_missing_alert_is_server_error
           {| req_user := caller 7 "dispatcher"; req_params_id := "999";
              req_query := ∅; req_body := ∅ |} world1).
  evaluate.
Defined.

Lemma list_alerts_of_user_are_own_witness :
  let req := list_request (caller 5 "user") in
  (refused 0 world1 = false -> exists rs, (list_alerts req world1).1 = send (DRows rs))
  ∧ (forall rs, json (list_alerts req world1).1 = Json (DRows rs) ->
       Forall (fun r => pg_eq (cell r "user_id") (u_id (req_user req)) = true) rs)
  ∧ (forall rs n, json (list_alerts req world1).1 = Json (DRows rs) ->
       u_id (req_user req) = VNum n ->
       Forall (fun r => r !! "user_id" = Some (VNum n)) rs).
Proof.
  apply (list_alerts_of_user_are_own (list_request (caller 5 "user")) world1).
  evaluate.
Defined.

(** The list a [user] gets on the sample store, having asked for the
    alerts of user 6: the one alert of their own. *)
Example list_alerts_sample :
  exists r,
    json (list_alerts (list_request (caller 5 "user")) world1).1 = Json (DRows [r])
    ∧ r !! "id" = Some (int 1) ∧ r !! "user_id" = Some (int 5).
Proof. eexists. by vm_compute. Qed.

Lemma set_status_reconciles_vehicle_witness :
  let req := request1 (caller 7 "dispatcher") {[ "status" := VStr "responding" ]} in
  let w := world1 in
  let st := get (req_body req) "status" in
  let d := status_updateData (clock w) st in
  let v := get alert1 "assigned_vehicle_id" in
  let w1 := after_call (set_table Alerts (merged req d (alerts (db w))) (db w)) w in
  (set_status req w).1 = send (DRow (d ∪ alert1))
  ∧ (st = VStr "responding" -> truthy v = true ->
       (set_status req w).2 = (await (vehicle_status v "responding") w1).2
       ∧ (refused 1 w = false ->
            vehicles (db (set_status req w).2) = with_status v "responding" (vehicles (db w))))
  ∧ (st = VStr "resolved" -> truthy v = true ->
       (set_status req w).2 = (await (vehicle_status v "available") w1).2
       ∧ (refused 1 w = false ->
            vehicles (db (set_status req w).2) = with_status v "available" (vehicles (db w))))
  ∧ (st = VStr "pending" ∨ st = VStr "cancelled" ∨ truthy v = false ->
       (set_status req w).2 = w1
       ∧ vehicles (db (set_status req w).2) = vehicles (db w)).
Proof.
  apply (set_status_reconciles_vehicle
           (request1 (caller 7 "dispatcher") {[ "status" := VStr "responding" ]})
           world1 alert1); evaluate.
Defined.

(** The two scenarios of the specification, on the sample store. *)
Example set_status_scenario :
  let w1 := (set_status (request1 (caller 7 "dispatcher") {[ "status" := VStr "responding" ]})
               world1).2 in
  let w2 := (set_status (request1 (caller 7 "dispatcher") {[ "status" := VStr "resolved" ]})
               w1).2 in
  ((.!! "status") <$> alerts (db w1)) = [Some (VStr "responding"); Some (VStr "pending")]
  ∧ ((.!! "status") <$> vehicles (db w1)) = [Some (VStr "responding"); Some (VStr "available")]
  ∧ ((.!! "status") <$> alerts (db w2)) = [Some (VStr "resolved"); Some (VStr "pending")]
  ∧ ((.!! "status") <$> vehicles (db w2)) = [Some (VStr "available"); Some (VStr "available")].
Proof. by vm_compute. Qed.

(** C2 fails as stated, in two ways.  An alert whose assigned vehicle has
    id 0 (not null): SetStatus to [responding] succeeds and the vehicle
    keeps its status.  An alert on vehicle 10 when the store refuses the
    vehicle write: SetStatus succeeds and the vehicle keeps its status. *)
Lemma set_status_leaves_vehicle :
  let req := request1 (caller 7 "dispatcher") {[ "status" := VStr "responding" ]} in
  (alert_on_vehicle0 !! "assigned_vehicle_id" = Some (int 0)
   ∧ status (set_status req world0).1 = 200%Z
   ∧ vehicles (db (set_status req world0).2) = [vehicle 0 "assigned"])
  ∧ (alert1 !! "assigned_vehicle_id" = Some (int 10)
     ∧ status (set_status req (world_refusing [None; Some timeout])).1 = 200%Z
     ∧ vehicles (db (set_status req (world_refusing [None; Some timeout])).2)
       = [vehicle 10 "assigned"; vehicle 20 "available"]).
Proof. repeat split; evaluate. Defined.

Lemma assign_replaces_vehicle_witness :
  let req := request1 (caller 7 "dispatcher") {[ "vehicle_id" := int 20 ]} in
  let w := world1 in
  let d := sent (assign_updateData (clock w) (int 20) (get (req_body req) "responder_id")) in
  status (assign req w).1 = 200%Z
  ∧ alerts (db (assign req w).2) = merged req d (alerts (db w))
  ∧ (d ∪ alert1) !! "assigned_vehicle_id" = Some (int 20)
  ∧ (refused 2 w = false -> refused 3 w = false ->
       vehicles (db (assign req w).2)
       = with_status (int 20) "assigned" (with_status (int 10) "available" (vehicles (db w)))
       ∧ Forall (fun r =>
                   (r !! "id" = Some (int 10) -> r !! "status" = Some (VStr "available"))
                   ∧ (r !! "id" = Some (int 20) -> r !! "status" = Some (VStr "assigned")))
                (vehicles (db (assign req w).2))).
Proof.
  apply (assign_replaces_vehicle
           (request1 (caller 7 "dispatcher") {[ "vehicle_id" := int 20 ]}) world1 alert1 10 20);
    [right; evaluate | evaluate | evaluate | evaluate | evaluate | evaluate | done..].
Defined.

(** The assignment scenario of the specification, on the sample store. *)
Example assign_scenario :
  let w := (assign (request1 (caller 7 "dispatcher") {[ "vehicle_id" := int 20 ]}) world1).2 in
  ((.!! "assigned_vehicle_id") <$> alerts (db w)) = [Some (int 20); Some VNull]
  ∧ ((.!! "status") <$> vehicles (db w)) = [Some (VStr "available"); Some (VStr "assigned")].
Proof. split; evaluate. Qed.

(** C1 fails as stated, in two ways.  With 0 as the new vehicle id
    (different from the old id 10) the alert's [assigned_vehicle_id]
    becomes null and vehicle 0 is not claimed.  With the store refusing the
    two vehicle writes, the answer is still 200 and both vehicles keep
    their status. *)
Lemma assign_misses_vehicle :
  let to0 := request1 (caller 7 "dispatcher") {[ "vehicle_id" := int 0 ]} in
  let to20 := request1 (caller 7 "dispatcher") {[ "vehicle_id" := int 20 ]} in
  let refusing := world_refusing [None; None; Some timeout; Some timeout] in
  (status (assign to0 world1).1 = 200%Z
   ∧ ((.!! "assigned_vehicle_id") <$> alerts (db (assign to0 world1).2))
     = [Some VNull; Some VNull])
  ∧ (status (assign to20 refusing).1 = 200%Z
     ∧ ((.!! "status") <$> vehicles (db (assign to20 refusing).2))
       = [Some (VStr "assigned"); Some (VStr "available")]).
Proof. repeat split; evaluate. Defined.

Lemma secondary_writes_never_surface_witness :
  let req := request1 (caller 7 "dispatcher")
               {[ "status" := VStr "resolved"; "vehicle_id" := int 20 ]} in
  let w := world_refusing [None; None; Some timeout; Some timeout] in
  (includes validStatuses (get (req_body req) "status") = true ->
   includes ["admin"; "dispatcher"; "rescuer"] (u_role (req_user req)) = true ->
     let d := status_updateData (clock w) (get (req_body req) "status") in
     (set_status req w).1 = send (DRow (d ∪ alert1))
     ∧ alerts (db (set_status req w).2) = merged req d (alerts (db w)))
  ∧ (includes ["admin"; "dispatcher"] (u_role (req_user req)) = true ->
     refused 1 w = false ->
     let d := sent (assign_updateData (clock w) (get (req_body req) "vehicle_id")
                (get (req_body req) "responder_id")) in
     let s2 := set_table Alerts (merged req d (alerts (db w))) (db w) in
     (assign req w).1 = send (DRow (expand s2 assigned_alert (d ∪ alert1)))
     ∧ alerts (db (assign req w).2) = merged req d (alerts (db w))).
Proof.
  apply (secondary_writes_never_surface
           (request1 (caller 7 "dispatcher")
              {[ "status" := VStr "resolved"; "vehicle_id" := int 20 ]})
           (world_refusing [None; None; Some timeout; Some timeout]) alert1);
    evaluate.
Defined.

Lemma update_writes_body_witness :
  let req := request1 (caller 1 "admin")
               {[ "status" := VStr "archived"; "severity" := VStr "extreme";
                  "assigned_vehicle_id" := int 99; "user_id" := int 6 ]} in
  let w := world1 in
  let d := sent (put_updateData (clock w) (req_body req)) in
  (update_alert req w).1 = send (DRow (d ∪ alert1))
  ∧ alerts (db (update_alert req w).2) = merged req d (alerts (db w))
  ∧ vehicles (db (update_alert req w).2) = vehicles (db w)
  ∧ (forall k v, req_body req !! k = Some v -> v ≠ VUndefined -> k ≠ "updated_at" ->
       (d ∪ alert1) !! k = Some (stringified v))
  ∧ (forall k v, req_body req !! k = Some v -> scalar v = true -> k ≠ "updated_at" ->
       (d ∪ alert1) !! k = Some v)
  ∧ (d ∪ alert1) !! "updated_at" = Some (VStr (clock w))
  ∧ (forall k, req_body req !! k = None -> k ≠ "updated_at" -> (d ∪ alert1) !! k = alert1 !! k).
Proof.
  apply (update_writes_body
           (request1 (caller 1 "admin")
              {[ "status" := VStr "archived"; "severity" := VStr "extreme";
                 "assigned_vehicle_id" := int 99; "user_id" := int 6 ]})
           world1 alert1);
    [left; evaluate | evaluate | evaluate].
Defined.

(** Update puts the alert in a state Create and SetStatus turn down: a
    status and a severity outside their lists, a vehicle that does not
    exist, another owner; no vehicle row changes. *)
Example update_unchecked :
  let req := request1 (caller 1 "admin")
               {[ "status" := VStr "archived"; "severity" := VStr "extreme";
                  "assigned_vehicle_id" := int 99; "user_id" := int 6 ]} in
  let w := (update_alert req world1).2 in
  ((.!! "status") <$> alerts (db w)) = [Some (VStr "archived"); Some (VStr "pending")]
  ∧ ((.!! "severity") <$> alerts (db w)) = [Some (VStr "extreme"); Some (VStr "low")]
  ∧ ((.!! "assigned_vehicle_id") <$> alerts (db w)) = [Some (int 99); Some VNull]
  ∧ ((.!! "user_id") <$> alerts (db w)) = [Some (int 6); Some (int 6)]
  ∧ vehicles (db w) = vehicles (db world1)
  ∧ includes validStatuses (VStr "archived") = false
  ∧ includes validSeverities (VStr "extreme") = false.
Proof. repeat split; evaluate. Qed.

(** C9 fails as stated for one key: an [updated_at] in the body is not
    written; the row gets the time of the call. *)
Lemma update_overrides_updated_at :
  let req := request1 (caller 1 "admin") {[ "updated_at" := VStr "1999-12-31T23:59:59.000Z" ]} in
  req_body req !! "updated_at" = Some (VStr "1999-12-31T23:59:59.000Z")
  ∧ status (update_alert req world1).1 = 200%Z
  ∧ ((.!! "updated_at") <$> alerts (db (update_alert req world1).2))
    = [Some (VStr "2024-05-03T00:00:00.000Z"); None].
Proof. repeat split; evaluate. Defined.

(** A number of the body that is not finite ([1e999] in the JSON of the
    request) is written as null, by Update and by Assign. *)
Example update_writes_null_for_infinity :
  let put := request1 (caller 1 "admin") {[ "latitude" := VNum (Infinity false) ]} in
  let patch := request1 (caller 7 "dispatcher") {[ "vehicle_id" := VNum (Infinity false) ]} in
  status (update_alert put world1).1 = 200%Z
  ∧ ((.!! "latitude") <$> alerts (db (update_alert put world1).2)) = [Some VNull; None]
  ∧ status (assign patch world1).1 = 200%Z
  ∧ ((.!! "assigned_vehicle_id") <$> alerts (db (assign patch world1).2))
    = [Some VNull; Some VNull].
Proof. split_and!; evaluate. Qed.


Lemma create_stores_coordinates_witness :
  let req := request1 (caller 5 "user")
               (report "Car Accident on EDSA" (int 0) (VNum (decimal 1210244 10000))) in
  exists r,
    alerts (db (create_alert no_text req world1).2) = (alerts (db world1) ++ [r])%list
    ∧ forall c, c = "latitude" ∨ c = "longitude" ->
        (get (req_body req) c = int 0 -> r !! c = Some VNull)
        ∧ (forall q, get (req_body req) c = VNum (Fin q) -> q ≠ Qc_of_Z 0 ->
             r !! c = Some (VNum (Fin q)))
        ∧ (forall s, get (req_body req) c = VNum (Infinity s) -> r !! c = Some VNull)
        ∧ (r !! c = Some VNull ∨ exists q, r !! c = Some (VNum (Fin q))).
Proof.
  apply (create_stores_coordinates no_text
           (request1 (caller 5 "user")
              (report "Car Accident on EDSA" (int 0) (VNum (decimal 1210244 10000))))
           world1).
  evaluate.
Defined.

(** The coordinates of that row: null for the latitude 0, the number
    itself for the longitude 121.0244. *)
Example create_coordinates_sample :
  let req := request1 (caller 5 "user")
               (report "Car Accident on EDSA" (int 0) (VNum (decimal 1210244 10000))) in
  let w := (create_alert no_text req world1).2 in
  ((.!! "latitude") <$> alerts (db w)) = [None; None; Some VNull]
  ∧ ((.!! "longitude") <$> alerts (db w))
    = [None; None; Some (VNum (decimal 1210244 10000))].
Proof. split; evaluate. Qed.

(** C10 fails as stated for a number that is not finite: a latitude of
    [1e999], which [JSON.parse] reads as Infinity, is truthy and
    [parseFloat] gives it back, but the row that is stored holds null. *)
Lemma create_drops_infinite_coordinate :
  let req := request1 (caller 5 "user")
               (report "Car Accident on EDSA" (VNum (Infinity false)) (int 121)) in
  let w := (create_alert no_text req world1).2 in
  status (create_alert no_text req world1).1 = 201%Z
  ∧ get (req_body req) "latitude" = VNum (Infinity false)
  ∧ ((.!! "latitude") <$> alerts (db w)) = [None; None; Some VNull]
  ∧ ((.!! "longitude") <$> alerts (db w)) = [None; None; Some (int 121)].
Proof. split_and!; evaluate. Defined.

(** ** Further properties of the handlers *)

(** *** The role gates *)

(** X1.  A request the role gate of Update, Assign, Delete or SetStatus
    turns down is answered Forbidden and leaves the world as it was: no
    query is awaited. *)
Theorem denied_requests_change_nothing req w :
  (includes ["admin"; "dispatcher"] (u_role (req_user req)) = false ->
     update_alert req w = (respond Forbidden "Access denied", w)
     ∧ assign req w = (respond Forbidden "Access denied", w))
  ∧ (strict_eq (u_role (req_user req)) (VStr "admin") = false ->
     delete_alert req w = (respond Forbidden "Access denied. Admin only.", w))
  ∧ (includes validStatuses (get (req_body req) "status") = true ->
     includes ["admin"; "dispatcher"; "rescuer"] (u_role (req_user req)) = false ->
     set_status req w = (respond Forbidden "Access denied", w)).
Proof.
  split; [|split].
  - intros Hrole. unfold update_alert, assign, try_catch. by rewrite Hrole.
  - intros Hrole. unfold delete_alert, try_catch. by rewrite Hrole.
  - intros Hst Hrole. unfold set_status, try_catch. by rewrite Hst, Hrole.
Qed.

(** *** Reads *)

Lemma await_select q w :
  q_verb q = Select -> exists res, await q w = (Ok res, after_call (db w) w).
Proof.
  intros Hverb. destruct (refused 0 w) eqn:Hf.
  - destruct (await_refused q w Hf) as [e He]. eauto.
  - rewrite (await_accepted q w Hf). unfold exec. rewrite Hverb. eauto.
Qed.

Lemma list_query_verb req : q_verb (list_query req) = Select.
Proof.
  unfold list_query.
  by destruct (truthy (get (req_query req) "status")),
              (truthy (get (req_query req) "alert_type")),
              (strict_eq (u_role (req_user req)) (VStr "user")),
              (truthy (get (req_query req) "user_id")).
Qed.

(** X2.  List and Get never write: whatever the request and whatever the
    store answers, the store after the call is the store before it. *)
Theorem reads_never_write req w :
  db (list_alerts req w).2 = db w ∧ db (get_alert req w).2 = db w.
Proof.
  split.
  - unfold list_alerts, try_catch.
    destruct (await_select (list_query req) w (list_query_verb req)) as [res Hres].
    rewrite (bind_ok _ _ _ _ _ Hres).
    by destruct (r_error res).
  - unfold get_alert, try_catch.
    destruct (await_select
      (single (eq "id" (VStr (req_params_id req)) (select full_alert (from Alerts)))) w
      eq_refl) as [res Hres].
    rewrite (bind_ok _ _ _ _ _ Hres).
    destruct (r_error res); [done|]. cbn.
    destruct (r_data res) as [|r|rs]; cbn; [done| |];
      destruct (strict_eq (u_role (req_user req)) (VStr "user")); cbn; try done.
    + by destruct (strict_eq (get r "user_id") (u_id (req_user req))).
    + by destruct (u_id (req_user req)).
Qed.

(** *** A store that refuses the first query *)

Lemma await_refusal q w e rest :
  faults w = Some e :: rest -> await q w = (Ok (refuse e), after_call (db w) w).
Proof. intros Hf. unfold await, after_call. by rewrite Hf. Qed.

(** X3.  When the store refuses the first query a handler awaits, the
    handler answers 500 with the message of the store's error (or
    'Server error' when that is empty), awaits nothing more, and the
    store is what it was. *)
Theorem first_refusal_is_server_error req w e rest :
  faults w = Some e :: rest ->
  list_alerts req w = (server_error e, after_call (db w) w)
  ∧ get_alert req w = (server_error e, after_call (db w) w)
  ∧ (includes ["admin"; "dispatcher"] (u_role (req_user req)) = true ->
       update_alert req w = (server_error e, after_call (db w) w)
       ∧ assign req w = (server_error e, after_call (db w) w))
  ∧ (includes validStatuses (get (req_body req) "status") = true ->
     includes ["admin"; "dispatcher"; "rescuer"] (u_role (req_user req)) = true ->
       set_status req w = (server_error e, after_call (db w) w))
  ∧ (strict_eq (u_role (req_user req)) (VStr "admin") = true ->
       delete_alert req w = (server_error e, after_call (db w) w)).
Proof.
  intros Hf. split; [|split; [|split; [|split]]].
  - unfold list_alerts, try_catch. by rewrite (bind_ok _ _ _ _ _ (await_refusal _ w e rest Hf)).
  - unfold get_alert, try_catch. by rewrite (bind_ok _ _ _ _ _ (await_refusal _ w e rest Hf)).
  - intros Hrole. split.
    + unfold update_alert, try_catch. rewrite Hrole. cbn [negb].
      unfold toISOString at 1. unfold bind at 1.
      by rewrite (bind_ok _ _ _ _ _ (await_refusal _ w e rest Hf)).
    + unfold assign, try_catch. rewrite Hrole. cbn [negb].
      by rewrite (bind_ok _ _ _ _ _ (await_refusal _ w e rest Hf)).
  - intros Hst Hrole. unfold set_status, try_catch. rewrite Hst, Hrole. cbn [negb].
    unfold toISOString at 1. unfold bind at 1.
    by rewrite (bind_ok _ _ _ _ _ (await_refusal _ w e rest Hf)).
  - intros Hrole. unfold delete_alert, try_catch. rewrite Hrole. cbn [negb].
    by rewrite (bind_ok _ _ _ _ _ (await_refusal _ w e rest Hf)).
Qed.

(** *** Get: the owner check *)

Lemma exec_get_found now req s r0 :
  filter (fun r => named req r = true) (alerts s) = [r0] ->
  exec now (single (eq "id" (VStr (req_params_id req)) (select full_alert (from Alerts)))) s
  = (answer (DRow (expand s full_alert r0)), s).
Proof.
  intros Hone. unfold exec, returning, named in *. cbn in *. by rewrite Hone.
Qed.

Lemma expand_full_alert_keeps s r k :
  k ≠ "user" -> k ≠ "vehicle" -> k ≠ "responder" ->
  expand s full_alert r !! k = r !! k.
Proof. intros H1 H2 H3. unfold expand. cbn. by rewrite !lookup_insert_ne. Qed.

(** X4.  Get on the one alert the request names, with the store accepting
    the read: a caller whose role is [user] and whose id is not the
    alert's [user_id] is answered Forbidden; every other caller is answered
    200 with the row and its embedded user, vehicle and responder. *)
Theorem get_alert_checks_owner req w r0 :
  refused 0 w = false ->
  filter (fun r => named req r = true) (alerts (db w)) = [r0] ->
  (strict_eq (u_role (req_user req)) (VStr "user") = true ->
   strict_eq (get r0 "user_id") (u_id (req_user req)) = false ->
     get_alert req w = (respond Forbidden "Access denied", after_call (db w) w))
  ∧ (strict_eq (u_role (req_user req)) (VStr "user") = false
     ∨ strict_eq (get r0 "user_id") (u_id (req_user req)) = true ->
     get_alert req w = (send (DRow (expand (db w) full_alert r0)), after_call (db w) w)).
Proof.
  intros Hf Hone.
  assert (get (expand (db w) full_alert r0) "user_id" = get r0 "user_id") as Howner
    by (unfold get; by rewrite expand_full_alert_keeps).
  split.
  - intros Hrole Hother. unfold get_alert, try_catch.
    rewrite (bind_ok _ _ _ _ _ (await_accepted _ w Hf)), (exec_get_found _ _ _ _ Hone).
    cbn [fst snd r_error r_data answer throw_if]. unfold ret at 1. unfold bind at 1.
    cbn [data_truthy negb]. rewrite Hrole. unfold prop, ret at 1. unfold bind at 1.
    by rewrite Howner, Hother.
  - intros Hok. unfold get_alert, try_catch.
    rewrite (bind_ok _ _ _ _ _ (await_accepted _ w Hf)), (exec_get_found _ _ _ _ Hone).
    cbn [fst snd r_error r_data answer throw_if]. unfold ret at 1. unfold bind at 1.
    cbn [data_truthy negb].
    destruct (strict_eq (u_role (req_user req)) (VStr "user")) eqn:Hrole; [|done].
    destruct Hok as [Hok | Hown]; [done|].
    unfold prop, ret at 1. unfold bind at 1. by rewrite Howner, Hown.
Qed.

(** *** Writes to an alert that does not exist *)

Lemma exec_update_missing now req d sel s :
  filter (fun r => named req r = true) (alerts s) = [] ->
  exec now (single (select sel (alert_by_id req (update d (from Alerts))))) s
  = (refuse not_single, s).
Proof.
  intros Hnone. unfold exec, alert_by_id, commit, returning, named in *. cbn in *.
  by rewrite Hnone.
Qed.

Lemma exec_read_missing now req s :
  filter (fun r => named req r = true) (alerts s) = [] ->
  exec now (single (alert_by_id req (select current_assignment (from Alerts)))) s
  = (refuse not_single, s).
Proof.
  intros Hnone. unfold exec, alert_by_id, returning, named in *. cbn in *.
  by rewrite Hnone.
Qed.

(** X5.  Update, SetStatus and Assign on an id that names no alert, with
    the store accepting the query: the answer is 500 with the message of
    [.single()], not 404; the store is what it was and no vehicle write is
    awaited. *)
Theorem writes_to_missing_alert_are_server_errors req w :
  refused 0 w = false ->
  filter (fun r => named req r = true) (alerts (db w)) = [] ->
  (includes ["admin"; "dispatcher"] (u_role (req_user req)) = true ->
     update_alert req w = (server_error not_single, after_call (db w) w)
     ∧ assign req w = (server_error not_single, after_call (db w) w))
  ∧ (includes validStatuses (get (req_body req) "status") = true ->
     includes ["admin"; "dispatcher"; "rescuer"] (u_role (req_user req)) = true ->
       set_status req w = (server_error not_single, after_call (db w) w)).
Proof.
  intros Hf Hnone. split.
  - intros Hrole. split.
    + unfold update_alert, try_catch. rewrite Hrole. cbn [negb].
      unfold toISOString at 1. unfold bind at 1.
      rewrite (bind_ok _ _ _ _ _ (await_accepted _ w Hf)).
      by rewrite (exec_update_missing _ _ _ _ _ Hnone).
    + unfold assign, try_catch. rewrite Hrole. cbn [negb].
      rewrite (bind_ok _ _ _ _ _ (await_accepted _ w Hf)).
      by rewrite (exec_read_missing _ _ _ Hnone).
  - intros Hst Hrole. unfold set_status, try_catch. rewrite Hst, Hrole. cbn [negb].
    unfold toISOString at 1. unfold bind at 1.
    rewrite (bind_ok _ _ _ _ _ (await_accepted _ w Hf)).
    by rewrite (exec_update_missing _ _ _ _ _ Hnone).
Qed.

(** *** Delete *)

Lemma exec_delete_named now req s :
  exec now (alert_by_id req (delete (from Alerts))) s
  = (answer DNull,
     set_table Alerts (filter (fun r => named req r = false) (alerts s)) s).
Proof.
  unfold exec, alert_by_id, commit, returning. cbn. do 2 f_equal.
  apply list_filter_iff. intros r. unfold named. cbn.
  by destruct (pg_eq (cell r "id") (VStr (req_params_id req))).
Qed.

Lemma filter_named_removed req (rows : list (gmap string value)) :
  filter (fun r => named req r = true) (filter (fun r => named req r = false) rows) = [].
Proof.
  induction rows as [|r rows IH]; [done|].
  destruct (named req r) eqn:Hr.
  - by rewrite (filter_cons_False (fun r => named req r = false)) by congruence.
  - rewrite (filter_cons_True (fun r => named req r = false)) by done.
    by rewrite (filter_cons_False (fun r => named req r = true)) by congruence.
Qed.

Lemma filter_named_none req (rows : list (gmap string value)) :
  filter (fun r => named req r = true) rows = [] ->
  filter (fun r => named req r = false) rows = rows.
Proof.
  induction rows as [|r rows IH]; [done|]. intros Hnone.
  destruct (named req r) eqn:Hr.
  - by rewrite (filter_cons_True (fun r => named req r = true)) in Hnone by done.
  - rewrite (filter_cons_False (fun r => named req r = true)) in Hnone by congruence.
    rewrite (filter_cons_True (fun r => named req r = false)) by done.
    by rewrite IH.
Qed.

(** X6.  Delete by an admin, with the store accepting the query, answers
    200 and removes the alert rows the request names, and nothing else:
    the other alert rows stay, and the vehicle table is what it was, also
    for a vehicle the deleted alert was assigned.  When no row has the id,
    the answer is still 200 and the alert table is what it was. *)
Theorem delete_alert_removes_named req w :
  strict_eq (u_role (req_user req)) (VStr "admin") = true ->
  refused 0 w = false ->
  (delete_alert req w).1 = {| status := 200; json := Message "Alert deleted successfully" |}
  ∧ alerts (db (delete_alert req w).2)
    = filter (fun r => named req r = false) (alerts (db w))
  ∧ vehicles (db (delete_alert req w).2) = vehicles (db w)
  ∧ (filter (fun r => named req r = true) (alerts (db w)) = [] ->
       alerts (db (delete_alert req w).2) = alerts (db w)).
Proof.
  intros Hrole Hf.
  assert (delete_alert req w
          = ({| status := 200; json := Message "Alert deleted successfully" |},
             after_call (set_table Alerts
               (filter (fun r => named req r = false) (alerts (db w))) (db w)) w)) as ->.
  { unfold delete_alert, try_catch. rewrite Hrole. cbn [negb].
    rewrite (bind_ok _ _ _ _ _ (await_accepted _ w Hf)).
    by rewrite exec_delete_named. }
  cbn [fst snd db after_call set_table alerts vehicles]. repeat split.
  apply filter_named_none.
Qed.

(** X7.  After a Delete by an admin that the store accepted, Get on the
    same id answers ServerError (not NotFound), for every caller and
    whatever the store does next. *)
Theorem get_after_delete_is_server_error req req' w :
  strict_eq (u_role (req_user req)) (VStr "admin") = true ->
  refused 0 w = false ->
  req_params_id req' = req_params_id req ->
  status (get_alert req' (delete_alert req w).2).1 = ServerError.
Proof.
  intros Hrole Hf Hid.
  assert (filter (fun r => named req' r = true) (alerts (db (delete_alert req w).2)) = [])
    as Hnone.
  { unfold delete_alert, try_catch. rewrite Hrole. cbn [negb].
    rewrite (bind_ok _ _ _ _ _ (await_accepted _ w Hf)), exec_delete_named.
    cbn [fst snd db after_call set_table alerts].
    rewrite (list_filter_iff (fun r => named req' r = true) (fun r => named req r = true));
      [apply filter_named_removed|].
    intros r. unfold named. by rewrite Hid. }
  generalize dependent (delete_alert req w).2. intros w1 Hnone.
  unfold get_alert, try_catch. destruct (refused 0 w1) eqn:Hf1.
  - destruct (await_refused
      (single (eq "id" (VStr (req_params_id req')) (select full_alert (from Alerts)))) w1 Hf1)
      as [e He].
    by rewrite (bind_ok _ _ _ _ _ He).
  - rewrite (bind_ok _ _ _ _ _ (await_accepted _ w1 Hf1)).
    by rewrite exec_get_missing.
Qed.

(** *** Create: what the new row holds *)

Section CreateMore.
Variable other : value -> number.

Lemma create_alert_created_db req w :
  status (create_alert other req w).1 = 201%Z ->
  exists row,
    alertData other req w = (Ok row, w)
    ∧ db (create_alert other req w).2
      = next_seq Alerts
          (set_table Alerts
             (alerts (db w) ++ [sent row ∪ defaults Alerts (clock w) (db w)])%list (db w)).
Proof.
  unfold create_alert, try_catch.
  destruct (_ || _ || _ || _); [done|].
  destruct (includes validAlertTypes _); [|done].
  destruct (includes validSeverities _); [|done]. cbn [negb].
  destruct (alertData other req w) as [[row|e] w1] eqn:Hrow.
  - pose proof (alertData_world _ _ _ _ _ Hrow) as ->.
    rewrite (bind_ok _ _ _ _ _ Hrow). destruct (refused 0 w) eqn:Hf.
    + destruct (await_refused (single (select created_alert (insert row (from Alerts)))) w Hf)
        as [e He].
      by rewrite (bind_ok _ _ _ _ _ He).
    + rewrite (bind_ok _ _ _ _ _ (await_accepted _ w Hf)), exec_insert_alert.
      intros _. by exists row.
  - rewrite (bind_thrown _ _ _ _ _ Hrow). cbn. by destruct (String.eqb (message e) "").
Qed.

(** X8.  When Create answers 201 it has added one alert row, at the end
    of the table.  In that row [user_id] is the caller's id (as JSON
    carries it: the id itself when it is a finite number or a string) and
    [status] is [pending], whatever the payload says for these keys; [id]
    is the next id of the sequence and [reported_at] the time of the call;
    no vehicle and no responder is assigned.  The vehicle table is what it
    was. *)
Theorem create_sets_owner_and_status req w :
  status (create_alert other req w).1 = 201%Z ->
  exists r,
    alerts (db (create_alert other req w).2) = (alerts (db w) ++ [r])%list
    ∧ r !! "user_id" = property (u_id (req_user req))
    ∧ (scalar (u_id (req_user req)) = true -> r !! "user_id" = Some (u_id (req_user req)))
    ∧ r !! "status" = Some (VStr "pending")
    ∧ r !! "id" = Some (int (alert_seq (db w)))
    ∧ r !! "reported_at" = Some (VStr (clock w))
    ∧ r !! "assigned_vehicle_id" = None
    ∧ r !! "assigned_responder_id" = None
    ∧ vehicles (db (create_alert other req w).2) = vehicles (db w)
    ∧ alert_seq (db (create_alert other req w).2) = (alert_seq (db w) + 1)%Z.
Proof.
  intros Hcreated.
  destruct (create_alert_created_db req w Hcreated) as (row & Hrow & ->).
  apply alertData_ok in Hrow as [_ (t & d & l & _ & _ & ->)].
  eexists. split; [reflexivity|].
  assert (forall k, k ≠ "id" -> k ≠ "reported_at" ->
            (sent (alert_row other req (VStr (trim t)) d (VStr (trim l)))
               ∪ defaults Alerts (clock w) (db w)) !! k
            = alert_row other req (VStr (trim t)) d (VStr (trim l)) !! k ≫= property)
    as Hrow.
  { intros k H1 H2. rewrite lookup_union_l, lookup_sent; [done|].
    unfold defaults. by rewrite lookup_insert_ne, lookup_singleton_ne. }
  assert (forall k, alert_row other req (VStr (trim t)) d (VStr (trim l)) !! k = None ->
            (sent (alert_row other req (VStr (trim t)) d (VStr (trim l)))
               ∪ defaults Alerts (clock w) (db w)) !! k
            = defaults Alerts (clock w) (db w) !! k) as Hdef.
  { intros k Hk. by rewrite lookup_union_r by (by apply lookup_sent_None). }
  assert (alert_row other req (VStr (trim t)) d (VStr (trim l)) !! "user_id"
          = Some (u_id (req_user req))) as Huser by apply lookup_insert_eq.
  split_and!; [| | | | | | |done..].
  - by rewrite Hrow, Huser.
  - intros Hid. rewrite Hrow, Huser by done. by apply property_scalar.
  - rewrite Hrow by done. unfold alert_row.
    repeat (rewrite lookup_insert_ne by done). by rewrite lookup_insert_eq.
  - rewrite Hdef; [apply lookup_insert_eq|]. unfold alert_row.
    by repeat (rewrite lookup_insert_ne by done).
  - rewrite Hdef; [by unfold defaults; rewrite lookup_insert_ne, lookup_singleton_eq|].
    unfold alert_row. by repeat (rewrite lookup_insert_ne by done).
  - rewrite Hrow by done. unfold alert_row.
    by repeat (rewrite lookup_insert_ne by done).
  - rewrite Hrow by done. unfold alert_row.
    by repeat (rewrite lookup_insert_ne by done).
Qed.

(** X9.  A Create payload that passes the three validations but whose
    [title] or [location] is not a string (a number, [true], an array, an
    object) is answered ServerError: [.trim] is not a function of it.
    Nothing is stored and no query is awaited. *)
Theorem create_non_text_is_server_error req w :
  includes validAlertTypes (get (req_body req) "alert_type") = true ->
  includes validSeverities (get (req_body req) "severity") = true ->
  truthy (get (req_body req) "title") = true ->
  truthy (get (req_body req) "location") = true ->
  (forall s, get (req_body req) "title" ≠ VStr s)
  ∨ (forall s, get (req_body req) "location" ≠ VStr s) ->
  status (create_alert other req w).1 = ServerError
  ∧ (create_alert other req w).2 = w.
Proof.
  intros Hty Hsev Ht Hl Hnot. unfold create_alert, try_catch.
  rewrite Hty, Hsev, Ht, Hl.
  rewrite (includes_truthy validAlertTypes _ ltac:(by repeat constructor) Hty).
  rewrite (includes_truthy validSeverities _ ltac:(by repeat constructor) Hsev).
  cbn [negb orb].
  destruct (alertData other req w) as [[row|e] w1] eqn:Hrow.
  - apply alertData_ok in Hrow as [_ (t & d & l & Htitle & Hloc & _)].
    destruct Hnot as [Hnot | Hnot]; [by destruct (Hnot t) | by destruct (Hnot l)].
  - pose proof (alertData_world _ _ _ _ _ Hrow) as ->.
    by rewrite (bind_thrown _ _ _ _ _ Hrow).
Qed.

End CreateMore.

(** *** SetStatus and Assign: the columns they write *)

(** X10.  An accepted SetStatus writes the requested status on the alert
    whatever status the alert had (there is no table of transitions), sets
    [updated_at] to the time of the call and keeps every other column of
    the alert, its assigned vehicle and responder included. *)
Theorem set_status_overwrites_status req w r0 :
  includes validStatuses (get (req_body req) "status") = true ->
  includes ["admin"; "dispatcher"; "rescuer"] (u_role (req_user req)) = true ->
  refused 0 w = false ->
  filter (fun r => named req r = true) (alerts (db w)) = [r0] ->
  let d := status_updateData (clock w) (get (req_body req) "status") in
  alerts (db (set_status req w).2) = merged req d (alerts (db w))
  ∧ (d ∪ r0) !! "status" = Some (get (req_body req) "status")
  ∧ (d ∪ r0) !! "updated_at" = Some (VStr (clock w))
  ∧ (forall k, k ≠ "status" -> k ≠ "updated_at" -> (d ∪ r0) !! k = r0 !! k).
Proof.
  intros Hst Hrole Hf Hone. cbn zeta.
  rewrite (set_status_run req w r0 Hst Hrole Hf Hone). cbn [fst snd].
  split_and!.
  - repeat (case_match; rewrite ?alerts_after_vehicle_status); done.
  - apply lookup_union_Some_l, lookup_insert_eq.
  - apply lookup_union_Some_l. unfold status_updateData.
    by rewrite lookup_insert_ne, lookup_insert_eq.
  - intros k H1 H2. by apply status_updateData_keeps.
Qed.

Lemma assign_updateData_keeps now vid rid (r0 : gmap string value) k :
  k ≠ "assigned_vehicle_id" -> k ≠ "assigned_responder_id" -> k ≠ "updated_at" ->
  (sent (assign_updateData now vid rid) ∪ r0) !! k = r0 !! k.
Proof.
  intros H1 H2 H3. apply lookup_union_r, lookup_sent_None. unfold assign_updateData.
  by rewrite !lookup_insert_ne.
Qed.

(** X11.  An accepted Assign writes three columns of the alert.
    [assigned_vehicle_id] gets the body's [vehicle_id] as JSON carries it,
    or null when the body's value is falsy (absent, null, zero): the value
    itself when it is a string, a boolean or a finite number, and null
    when it is a number that is not finite.  [assigned_responder_id] gets
    the body's [responder_id] in the same way, and [updated_at] the time
    of the call.  Every other column, [status] included, keeps its cell:
    assigning a vehicle does not move the alert to [responding]. *)
Theorem assign_writes_three_columns req w r0 :
  includes ["admin"; "dispatcher"] (u_role (req_user req)) = true ->
  refused 0 w = false ->
  refused 1 w = false ->
  filter (fun r => named req r = true) (alerts (db w)) = [r0] ->
  let d := sent (assign_updateData (clock w) (get (req_body req) "vehicle_id")
             (get (req_body req) "responder_id")) in
  alerts (db (assign req w).2) = merged req d (alerts (db w))
  ∧ (forall k c, (k, c) = ("vehicle_id", "assigned_vehicle_id")
                 ∨ (k, c) = ("responder_id", "assigned_responder_id") ->
       (d ∪ r0) !! c = Some (stringified (or_else (get (req_body req) k) VNull))
       ∧ (scalar (get (req_body req) k) = true ->
            (d ∪ r0) !! c = Some (or_else (get (req_body req) k) VNull))
       ∧ (truthy (get (req_body req) k) = false -> (d ∪ r0) !! c = Some VNull)
       ∧ (forall n, get (req_body req) k = VNum n -> scalar (VNum n) = false ->
            (d ∪ r0) !! c = Some VNull))
  ∧ (d ∪ r0) !! "updated_at" = Some (VStr (clock w))
  ∧ (forall k, k ≠ "assigned_vehicle_id" -> k ≠ "assigned_responder_id" ->
       k ≠ "updated_at" -> (d ∪ r0) !! k = r0 !! k).
Proof.
  intros Hrole Hf0 Hf1 Hone. cbn zeta.
  rewrite (assign_run req w r0 Hrole Hf0 Hf1 Hone). cbn [fst snd].
  split_and!.
  - repeat (case_match; rewrite ?alerts_after_vehicle_status); done.
  - intros k c Hkc.
    assert ((sent (assign_updateData (clock w) (get (req_body req) "vehicle_id")
                     (get (req_body req) "responder_id")) ∪ r0) !! c
            = Some (stringified (or_else (get (req_body req) k) VNull))) as ->.
    { apply lookup_union_Some_l.
      destruct Hkc as [[= -> ->] | [= -> ->]];
        [apply lookup_sent_assign_vehicle | apply lookup_sent_assign_responder]. }
    unfold or_else. split_and!; [done | | |].
    + intros Hv. destruct (truthy (get (req_body req) k)); [|done].
      by destruct (get (req_body req) k) as [| | |[| |]| | |].
    + by intros ->.
    + intros n -> Hn. by destruct n as [|s|q]; [| |done].
  - apply lookup_union_Some_l. rewrite lookup_sent. unfold assign_updateData.
    do 2 (rewrite lookup_insert_ne by done). by rewrite lookup_insert_eq.
  - intros k H1 H2 H3. by apply assign_updateData_keeps.
Qed.

(** *** Assign: the same vehicle again, and no vehicle *)

Lemma strict_eq_truthy a b : truthy a = true -> truthy b = false -> strict_eq a b = false.
Proof.
  intros Ha Hb. destruct (strict_eq a b) eqn:Heq; [|done].
  destruct a, b; cbn in *; try done.
  - apply Bool.eqb_prop in Heq. congruence.
  - apply number_eqb_eq in Heq. congruence.
  - apply String.eqb_eq in Heq. congruence.
Qed.

Lemma strict_eq_int_refl (a : Z) : strict_eq (int a) (int a) = true.
Proof. cbn. by apply bool_decide_eq_true. Qed.

(** X12.  Assign with the vehicle the alert already has (a non-zero
    number), with the store accepting the read and the write of the alert:
    the vehicle is not released; the only vehicle write awaited sets its
    status to [assigned], also when the vehicle was [responding]. *)
Theorem assign_same_vehicle_again req w r0 (a : Z) :
  includes ["admin"; "dispatcher"] (u_role (req_user req)) = true ->
  refused 0 w = false ->
  refused 1 w = false ->
  filter (fun r => named req r = true) (alerts (db w)) = [r0] ->
  get r0 "assigned_vehicle_id" = int a ->
  get (req_body req) "vehicle_id" = int a ->
  a ≠ 0%Z ->
  let d := sent (assign_updateData (clock w) (int a) (get (req_body req) "responder_id")) in
  let w2 := after_call (set_table Alerts (merged req d (alerts (db w))) (db w))
              (after_call (db w) w) in
  status (assign req w).1 = 200%Z
  ∧ (assign req w).2 = (await (vehicle_status (int a) "assigned") w2).2
  ∧ (refused 2 w = false ->
       vehicles (db (assign req w).2) = with_status (int a) "assigned" (vehicles (db w))).
Proof.
  intros Hrole Hf0 Hf1 Hone Hold Hnew Ha. cbn zeta.
  rewrite (assign_run req w r0 Hrole Hf0 Hf1 Hone), Hold, Hnew. cbn [fst snd].
  rewrite (truthy_int a Ha), strict_eq_int_refl. cbn [andb negb].
  split_and!; [done..|]. intros Hf2.
  rewrite vehicles_after_vehicle_status; [done|]. by rewrite !refused_after_call.
Qed.

(** X13.  Assign without a vehicle ([vehicle_id] absent, null or zero),
    with the store accepting the read and the write of the alert: the
    alert's [assigned_vehicle_id] becomes null.  If the alert had a
    vehicle, the only vehicle write awaited releases it to [available];
    if it had none, no vehicle write is awaited at all. *)
Theorem assign_without_vehicle req w r0 :
  includes ["admin"; "dispatcher"] (u_role (req_user req)) = true ->
  refused 0 w = false ->
  refused 1 w = false ->
  filter (fun r => named req r = true) (alerts (db w)) = [r0] ->
  truthy (get (req_body req) "vehicle_id") = false ->
  let d := sent (assign_updateData (clock w) (get (req_body req) "vehicle_id")
             (get (req_body req) "responder_id")) in
  let old := get r0 "assigned_vehicle_id" in
  let w2 := after_call (set_table Alerts (merged req d (alerts (db w))) (db w))
              (after_call (db w) w) in
  status (assign req w).1 = 200%Z
  ∧ (d ∪ r0) !! "assigned_vehicle_id" = Some VNull
  ∧ (truthy old = true ->
       (assign req w).2 = (await (vehicle_status old "available") w2).2
       ∧ (refused 2 w = false ->
            vehicles (db (assign req w).2) = with_status old "available" (vehicles (db w))))
  ∧ (truthy old = false -> (assign req w).2 = w2).
Proof.
  intros Hrole Hf0 Hf1 Hone Hnone. cbn zeta.
  rewrite (assign_run req w r0 Hrole Hf0 Hf1 Hone), Hnone. cbn [fst snd].
  split_and!.
  - done.
  - apply lookup_union_Some_l. rewrite lookup_sent_assign_vehicle. unfold or_else.
    by rewrite Hnone.
  - intros Hold. rewrite Hold, (strict_eq_truthy _ _ Hold Hnone). cbn [andb negb].
    split; [done|]. intros Hf2.
    rewrite vehicles_after_vehicle_status; [done|]. by rewrite !refused_after_call.
  - intros Hold. by rewrite Hold.
Qed.

(** *** What SetStatus, Assign and Update never change *)

#[local] Instance same_identities_refl : Reflexive same_identities.
Proof. by intros s. Qed.

#[local] Instance same_identities_trans : Transitive same_identities.
Proof.
  intros s1 s2 s3 (H1 & H2 & H3 & H4 & H5) (K1 & K2 & K3 & K4 & K5).
  unfold same_identities. split_and!; congruence.
Qed.

#[local] Instance same_but_alert_cells_refl : Reflexive same_but_alert_cells.
Proof. by intros s. Qed.

#[local] Instance same_but_alert_cells_trans : Transitive same_but_alert_cells.
Proof.
  intros s1 s2 s3 (H1 & H2 & H3 & H4) (K1 & K2 & K3 & K4).
  unfold same_but_alert_cells. split_and!; congruence.
Qed.

Section Keeps.
Context (R : store -> store -> Prop) `{!Reflexive R, !Transitive R}.

Lemma keeps_ret {A} (a : A) : keeps R (ret a).
Proof. by intros w. Qed.

Lemma keeps_throw {A} e : keeps R (throw (A:=A) e).
Proof. by intros w. Qed.

Lemma keeps_toISOString : keeps R toISOString.
Proof. by intros w. Qed.

Lemma keeps_throw_if e : keeps R (throw_if e).
Proof. destruct e; [apply keeps_throw | apply keeps_ret]. Qed.

Lemma keeps_prop d k : keeps R (prop d k).
Proof. destruct d; [apply keeps_throw | apply keeps_ret..]. Qed.

Lemma keeps_bind {A B} (m : M A) (k : A -> M B) :
  keeps R m -> (forall a, keeps R (k a)) -> keeps R (bind m k).
Proof.
  intros Hm Hk w. unfold bind. specialize (Hm w).
  destruct (m w) as [[a|e] w1]; [|done].
  etrans; [exact Hm|]. apply Hk.
Qed.

Lemma keeps_await q : (forall now s, R s (exec now q s).2) -> keeps R (await q).
Proof.
  intros Hq w. unfold await. destruct (faults w) as [|[e|] rest]; cbn; try done.
  - specialize (Hq (clock w) (db w)). by destruct (exec (clock w) q (db w)).
  - specialize (Hq (clock w) (db w)). by destruct (exec (clock w) q (db w)).
Qed.

Lemma keeps_select q : q_verb q = Select -> keeps R (await q).
Proof. intros Hverb. apply keeps_await. intros now s. unfold exec. by rewrite Hverb. Qed.

Lemma keeps_try_catch m w : keeps R m -> R (db w) (db (try_catch m w).2).
Proof.
  intros Hm. unfold try_catch. specialize (Hm w). by destruct (m w) as [[r|e] w1].
Qed.

End Keeps.

#[local] Opaque keeps.

(** Apply a lemma of the section above; the relation's instances are found. *)
Ltac keep lem := apply lem; try (by apply _).

Lemma update_keeps_cell d c (rows : list (gmap string value)) (hit : gmap string value -> Prop)
    `{!forall r, Decision (hit r)} :
  d !! c = None ->
  (fun r => cell r c) <$> ((fun r => if decide (hit r) then d ∪ r else r) <$> rows)
  = (fun r => cell r c) <$> rows.
Proof.
  intros Hd. rewrite <- list_fmap_compose. apply list_fmap_ext. intros _ r _. cbn.
  destruct (decide (hit r)); [|done]. unfold cell. by rewrite lookup_union_r.
Qed.

Lemma exec_update_same_identities now q d s :
  q_verb q = Update d -> q_from q ≠ Users ->
  d !! "id" = None -> d !! "user_id" = None ->
  same_identities s (exec now q s).2.
Proof.
  intros Hverb Hfrom Hid%lookup_sent_None Howner%lookup_sent_None.
  unfold exec, commit. rewrite Hverb.
  destruct (r_error _); [done|]. cbn [snd].
  destruct (q_from q); [| |done]; unfold same_identities, ids, owners; cbn;
    rewrite ?update_keeps_cell by done; done.
Qed.

Lemma exec_update_same_but_alert_cells now q d s :
  q_verb q = Update d -> q_from q = Alerts ->
  same_but_alert_cells s (exec now q s).2.
Proof.
  intros Hverb Hfrom. unfold exec, commit. rewrite Hverb, Hfrom.
  destruct (r_error _); [done|]. cbn [snd].
  unfold same_but_alert_cells. cbn. by rewrite length_fmap.
Qed.

Lemma keeps_vehicle_status v st : keeps same_identities (await (vehicle_status v st)).
Proof.
  keep keeps_await. intros now s.
  by apply (exec_update_same_identities now _ {[ "status" := VStr st ]}).
Qed.

(** X14.  SetStatus and Assign never change which alerts and vehicles
    there are nor whose the alerts are: for every request and every world,
    whatever they answer, the ids and the owners of the alert rows, the ids
    of the vehicle rows, the users and the id sequence are after the call
    what they were before. *)
Theorem status_and_assignment_keep_identities req w :
  same_identities (db w) (db (set_status req w).2)
  ∧ same_identities (db w) (db (assign req w).2).
Proof.
  split.
  - unfold set_status. keep keeps_try_catch. cbn zeta.
    destruct (negb (includes validStatuses _)); [keep keeps_ret|].
    destruct (negb (includes _ (u_role _))); [keep keeps_ret|].
    keep keeps_bind; [keep keeps_toISOString | intros now].
    keep keeps_bind; [|intros res].
    { keep keeps_await. intros t s.
      by apply (exec_update_same_identities t _
                  (status_updateData now (get (req_body req) "status"))). }
    keep keeps_bind; [keep keeps_throw_if | intros _].
    assert (forall on st, keeps same_identities
              (reconcile (get (req_body req) "status") (r_data res) on st)) as Hrec.
    { intros on st. unfold reconcile.
      destruct (strict_eq _ _); [|keep keeps_ret].
      keep keeps_bind; [keep keeps_prop | intros v].
      destruct (truthy v); [|keep keeps_ret].
      keep keeps_bind; [keep keeps_vehicle_status | intros _].
      keep keeps_ret. }
    keep keeps_bind; [apply Hrec | intros _].
    keep keeps_bind; [apply Hrec | intros _].
    keep keeps_ret.
  - unfold assign. keep keeps_try_catch. cbn zeta.
    destruct (negb (includes _ (u_role _))); [keep keeps_ret|].
    keep keeps_bind; [by keep keeps_select | intros cur].
    keep keeps_bind; [keep keeps_throw_if | intros _].
    keep keeps_bind; [keep keeps_toISOString | intros now].
    keep keeps_bind; [|intros upd].
    { keep keeps_await. intros t s.
      by apply (exec_update_same_identities t _
                  (assign_updateData now (get (req_body req) "vehicle_id")
                     (get (req_body req) "responder_id"))). }
    keep keeps_bind; [keep keeps_throw_if | intros _].
    keep keeps_bind; [|intros _].
    { unfold release_old. destruct (_ && _); [|keep keeps_ret].
      keep keeps_bind; [keep keeps_vehicle_status | intros _].
      keep keeps_ret. }
    keep keeps_bind; [|intros _].
    { unfold claim_new. destruct (truthy _); [|keep keeps_ret].
      keep keeps_bind; [keep keeps_vehicle_status | intros _].
      keep keeps_ret. }
    keep keeps_ret.
Qed.

(** X15.  Update writes cells of alert rows and nothing else: for every
    request and every world, whatever it answers, the number of alert rows,
    the vehicle table, the users and the id sequence are after the call
    what they were before. *)
Theorem update_changes_alert_cells_only req w :
  same_but_alert_cells (db w) (db (update_alert req w).2).
Proof.
  unfold update_alert. keep keeps_try_catch.
  destruct (negb (includes _ (u_role _))); [keep keeps_ret|].
  keep keeps_bind; [keep keeps_toISOString | intros now].
  keep keeps_bind; [|intros res].
  { keep keeps_await. intros t s.
    by apply (exec_update_same_but_alert_cells t _ (put_updateData now (req_body req))). }
  keep keeps_bind; [keep keeps_throw_if | intros _].
  destruct (negb (data_truthy _)); keep keeps_ret.
Qed.

(** *** List: the filters *)

Lemma list_query_shape req :
  list_query req =
    {| q_from := Alerts; q_verb := Select;
       q_filters :=
         ((if truthy (get (req_query req) "status")
           then [("status", get (req_query req) "status")] else [])
          ++ (if truthy (get (req_query req) "alert_type")
              then [("alert_type", get (req_query req) "alert_type")] else [])
          ++ (if strict_eq (u_role (req_user req)) (VStr "user")
              then [("user_id", u_id (req_user req))]
              else if truthy (get (req_query req) "user_id")
                   then [("user_id", get (req_query req) "user_id")] else []))%list;
       q_returning := Some full_alert; q_order := Some ("reported_at", false);
       q_single := false |}.
Proof.
  unfold list_query.
  by destruct (truthy (get (req_query req) "status")),
              (truthy (get (req_query req) "alert_type")),
              (strict_eq (u_role (req_user req)) (VStr "user")),
              (truthy (get (req_query req) "user_id")).
Qed.

Lemma list_query_fields req :
  q_verb (list_query req) = Select
  ∧ q_from (list_query req) = Alerts
  ∧ q_returning (list_query req) = Some full_alert
  ∧ q_order (list_query req) = Some ("reported_at", false)
  ∧ q_single (list_query req) = false.
Proof. by rewrite list_query_shape. Qed.

Lemma list_alerts_rows req w rs :
  json (list_alerts req w).1 = Json (DRows rs) ->
  rs = expand (db w) full_alert <$>
         ordered (Some ("reported_at", false))
           (filter (fun r => matches (q_filters (list_query req)) r = true) (alerts (db w))).
Proof.
  unfold list_alerts, try_catch. destruct (refused 0 w) eqn:Hf.
  - destruct (await_refused (list_query req) w Hf) as [e He].
    by rewrite (bind_ok _ _ _ _ _ He).
  - rewrite (bind_ok _ _ _ _ _ (await_accepted _ w Hf)).
    unfold exec, returning.
    destruct (list_query_fields req) as (Hverb & Hfrom & Hret & Hord & Hsingle).
    rewrite Hverb, Hfrom, Hret, Hord, Hsingle. cbn. by intros [= <-].
Qed.

Lemma matches_elem_of fs c arg r :
  (c, arg) ∈ fs -> matches fs r = true -> pg_eq (cell r c) arg = true.
Proof.
  intros Hin Hm. unfold matches in Hm. rewrite forallb_forall in Hm.
  by apply (Hm (c, arg)), list_elem_of_In.
Qed.

Lemma pg_eq_string a arg t : pg_eq (VStr a) arg = true -> text arg = Some t -> a = t.
Proof.
  destruct arg as [| |b|n|s|items|fields]; try done.
  - cbn. intros Heq [= <-]. by apply String.eqb_eq.
  - unfold pg_eq. intros Heq Ht. rewrite Ht in Heq. by apply String.eqb_eq in Heq.
  - cbn. intros Heq [= <-]. by apply String.eqb_eq.
Qed.

(** X16.  Every row List answers with passes each filter the request
    carries.  A filter is what the query string holds under [status],
    under [alert_type] or, for a caller whose role is not [user], under
    [user_id], when that is truthy; it is compared as its text is: a
    string as itself, an array ([?status[]=pending]) as the texts of its
    elements joined by commas.  So a row that is answered and whose
    [status] is a string has the text of the query's [status] as its
    [status], and likewise for [alert_type]. *)
Theorem list_alerts_pass_filters req w rs :
  json (list_alerts req w).1 = Json (DRows rs) ->
  (forall c t, c = "status" ∨ c = "alert_type" ->
     truthy (get (req_query req) c) = true ->
     text (get (req_query req) c) = Some t ->
     Forall (fun r => pg_eq (cell r c) (get (req_query req) c) = true
                      ∧ forall a, cell r c = VStr a -> a = t) rs)
  ∧ (strict_eq (u_role (req_user req)) (VStr "user") = false ->
     truthy (get (req_query req) "user_id") = true ->
     is_Some (text (get (req_query req) "user_id")) ->
     Forall (fun r => pg_eq (cell r "user_id") (get (req_query req) "user_id") = true) rs).
Proof.
  intros Hrs. apply list_alerts_rows in Hrs as ->.
  assert (forall c arg, c ≠ "user" -> c ≠ "vehicle" -> c ≠ "responder" ->
            (c, arg) ∈ q_filters (list_query req) ->
            Forall (fun r => pg_eq (cell r c) arg = true)
              (expand (db w) full_alert <$>
                 ordered (Some ("reported_at", false))
                   (filter (fun r => matches (q_filters (list_query req)) r = true)
                      (alerts (db w))))) as Hall.
  { intros c arg H1 H2 H3 Hin. apply Forall_fmap, Forall_forall. intros r Hr. cbn.
    unfold cell. rewrite expand_full_alert_keeps by done.
    apply ordered_elem_of, list_elem_of_filter in Hr as [Hr _].
    by apply (matches_elem_of _ _ _ _ Hin). }
  split.
  - intros c t Hc Hgiven Ht.
    eapply Forall_impl.
    + apply (Hall c (get (req_query req) c)); [by destruct Hc as [-> | ->]..|].
      rewrite list_query_shape. cbn [q_filters].
      destruct Hc as [-> | ->]; rewrite Hgiven; set_solver.
    + intros r Hr. cbn beta in Hr. split; [done|]. intros a Ha. rewrite Ha in Hr.
      by apply (pg_eq_string _ _ _ Hr).
  - intros Hrole Huid _. apply Hall; [done..|].
    rewrite list_query_shape. cbn [q_filters]. rewrite Hrole, Huid. set_solver.
Qed.

Lemma filter_all (rows : list (gmap string value)) :
  filter (fun r => matches [] r = true) rows = rows.
Proof.
  induction rows as [|r rows IH]; [done|].
  rewrite filter_cons_True by done. by rewrite IH.
Qed.

(** X17.  For a caller whose role is not [user] and a query string without
    filters, List answers, unless the store refuses the read, with every
    alert of the table: the rows are the rows of the table, each with its
    embedded user, vehicle and responder, in the order of the sort. *)
Theorem list_alerts_unfiltered req w :
  strict_eq (u_role (req_user req)) (VStr "user") = false ->
  truthy (get (req_query req) "status") = false ->
  truthy (get (req_query req) "alert_type") = false ->
  truthy (get (req_query req) "user_id") = false ->
  refused 0 w = false ->
  exists rs,
    list_alerts req w = (send (DRows rs), after_call (db w) w)
    ∧ rs ≡ₚ expand (db w) full_alert <$> alerts (db w).
Proof.
  intros Hrole Hst Hty Huid Hf. unfold list_alerts, try_catch.
  rewrite (bind_ok _ _ _ _ _ (await_accepted _ w Hf)).
  rewrite (list_query_shape req), Hrole, Hst, Hty, Huid. unfold exec. cbn.
  eexists. split; [done|].
  pose proof (filter_all (alerts (db w))) as Hall. unfold matches in Hall. cbn in Hall.
  by rewrite merge_sort_Permutation, Hall.
Qed.

(** *** The CORS policy *)

(** X18.  The origin function of the server's CORS options allows a request
    without an origin and the three origins listed as strings, and no
    other: the regular expression in the list is compared with [===] by
    [indexOf] and matches nothing, so an origin under [vercel.app] is
    turned down. *)
Theorem cors_allows_listed_strings_only :
  Server.origin VUndefined = Server.Allowed
  ∧ forall s : string,
      Server.origin (VStr s) = Server.Allowed
      <-> s = ""
          ∨ s = "http://192.168.1.29:3000"
          ∨ s = "http://localhost:3000"
          ∨ s = "https://rescuelink-backend-j0gz.onrender.com/api-docs/".
Proof.
  split; [done|]. intros s.
  unfold Server.origin, Server.indexOf, Server.allowedOrigins, Server.regexp.
  cbn [truthy Server.indexOf_from strict_eq].
  destruct (String.eqb_spec s "") as [-> | Hne]; cbn [negb]; [by split; [left|]|].
  destruct (String.eqb_spec "http://192.168.1.29:3000" s) as [<- | H1];
    [split; [by right; left | done]|].
  destruct (String.eqb_spec "http://localhost:3000" s) as [<- | H2];
    [split; [by right; right; left | done]|].
  destruct (String.eqb_spec "https://rescuelink-backend-j0gz.onrender.com/api-docs/" s)
    as [<- | H3]; [split; [by right; right; right | done]|].
  split; [done|]. intros [-> | [-> | [-> | ->]]]; done.
Qed.

(** *** SetStatus twice *)

Lemma named_union req d (r : gmap string value) :
  d !! "id" = None -> named req (d ∪ r) = named req r.
Proof. intros Hd. unfold named, matches, cell. cbn. by rewrite lookup_union_r. Qed.

Lemma merged_idemp req d rows :
  d !! "id" = None -> merged req d (merged req d rows) = merged req d rows.
Proof.
  intros Hd. unfold merged. rewrite <- list_fmap_compose. apply list_fmap_ext.
  intros _ r _. unfold compose. destruct (named req r) eqn:Hr.
  - rewrite named_union, Hr by done. by rewrite (assoc_L (∪)), (idemp_L (∪)).
  - by rewrite Hr.
Qed.

Lemma filter_merged req d rows :
  d !! "id" = None ->
  filter (fun r => named req r = true) (merged req d rows)
  = (fun r => d ∪ r) <$> filter (fun r => named req r = true) rows.
Proof.
  intros Hd. induction rows as [|r rows IH]; [done|].
  unfold merged in *. rewrite fmap_cons. destruct (named req r) eqn:Hr.
  - rewrite (filter_cons_True _ (d ∪ r)) by (by rewrite named_union).
    rewrite (filter_cons_True _ r) by done. by rewrite fmap_cons, IH.
  - rewrite (filter_cons_False _ r) by congruence.
    by rewrite (filter_cons_False _ r) by congruence.
Qed.

Lemma with_status_overwrite v a b rows :
  with_status v b (with_status v a rows) = with_status v b rows.
Proof.
  unfold with_status. rewrite <- list_fmap_compose. apply list_fmap_ext.
  intros _ r _. cbn. destruct (pg_eq (cell r "id") v) eqn:Hr.
  - unfold cell in *. rewrite lookup_insert_ne by done. rewrite Hr.
    apply insert_insert_eq.
  - by rewrite Hr.
Qed.

Lemma await_vehicle_status_quiet v st w :
  faults w = [] ->
  (await (vehicle_status v st) w).2
  = {| db := set_table Vehicles (with_status v st (vehicles (db w))) (db w);
       faults := []; clock := clock w |}.
Proof.
  intros Hq. rewrite await_vehicle_status_world. unfold refused, after_call.
  by rewrite Hq.
Qed.

Lemma set_status_quiet req w r0 :
  includes validStatuses (get (req_body req) "status") = true ->
  includes ["admin"; "dispatcher"; "rescuer"] (u_role (req_user req)) = true ->
  faults w = [] ->
  filter (fun r => named req r = true) (alerts (db w)) = [r0] ->
  let st := get (req_body req) "status" in
  let d := status_updateData (clock w) st in
  set_status req w
  = (send (DRow (d ∪ r0)),
     {| db := reconciled st (get r0 "assigned_vehicle_id")
                (set_table Alerts (merged req d (alerts (db w))) (db w));
        faults := []; clock := clock w |}).
Proof.
  intros Hst Hrole Hq Hone. cbn zeta.
  assert (refused 0 w = false) as Hf by (unfold refused; by rewrite Hq).
  rewrite (set_status_run req w r0 Hst Hrole Hf Hone). f_equal.
  unfold reconciled, after_call. rewrite Hq. cbn [tail].
  destruct (strict_eq _ (VStr "responding") && _);
    destruct (strict_eq _ (VStr "resolved") && _);
    rewrite ?await_vehicle_status_quiet by (by rewrite ?await_vehicle_status_quiet);
    by rewrite ?await_vehicle_status_quiet.
Qed.

(** X19.  SetStatus is idempotent: with a store that refuses nothing, a
    second SetStatus with the same request, at the same time, gives the
    same answer as the first and leaves the world the first one made. *)
Theorem set_status_twice req w r0 :
  includes validStatuses (get (req_body req) "status") = true ->
  includes ["admin"; "dispatcher"; "rescuer"] (u_role (req_user req)) = true ->
  faults w = [] ->
  filter (fun r => named req r = true) (alerts (db w)) = [r0] ->
  set_status req (set_status req w).2 = set_status req w.
Proof.
  intros Hst Hrole Hq Hone.
  assert (status_updateData (clock w) (get (req_body req) "status") !! "id" = None) as Hd
    by done.
  rewrite (set_status_quiet req w r0 Hst Hrole Hq Hone). cbn [snd].
  set (d := status_updateData (clock w) (get (req_body req) "status")) in *.
  set (v := get r0 "assigned_vehicle_id").
  set (st := get (req_body req) "status") in *.
  assert (alerts (reconciled st v (set_table Alerts (merged req d (alerts (db w))) (db w)))
          = merged req d (alerts (db w))) as Halerts.
  { unfold reconciled. by repeat case_match. }
  rewrite (set_status_quiet req _ (d ∪ r0) Hst Hrole
             (eq_refl : faults {| db := _; faults := []; clock := _ |} = [])).
  2:{ cbn [db]. rewrite Halerts, filter_merged, Hone by done. done. }
  cbn [db clock]. fold st d. rewrite Halerts.
  assert (get (d ∪ r0) "assigned_vehicle_id" = v) as ->.
  { unfold get, d. by rewrite status_updateData_keeps. }
  rewrite (assoc_L (∪)), (idemp_L (∪)). do 2 f_equal.
  rewrite merged_idemp by done.
  unfold reconciled. destruct (db w) as [A V U n].
  destruct (strict_eq st (VStr "responding") && truthy v);
    destruct (strict_eq st (VStr "resolved") && truthy v);
    cbn [set_table alerts vehicles users alert_seq];
    rewrite ?with_status_overwrite; done.
Qed.

(** *** Create: the texts that are stored *)

Lemma opt_call_trim_inv name v w x w' :
  opt_call_trim name v w = (Ok x, w') ->
  ((v = VUndefined ∨ v = VNull) ∧ x = VUndefined)
  ∨ exists s, v = VStr s ∧ x = VStr (trim s).
Proof. destruct v; cbn; intros [= <- <-]; eauto. Qed.

Section CreateTexts.
Variable other : value -> number.

(** X20.  When Create answers 201, the payload's [title] and [location]
    are strings and the new row holds them trimmed.  Its [description] is
    the trimmed description when the payload has one that is not blank,
    and null when the payload has none or a blank one.  Its [image_url] is
    what JSON carries of the payload's [image_url], and null when the
    payload has none or a falsy one: a string that is not empty is stored
    as it is. *)
Theorem create_stores_trimmed_texts req w :
  status (create_alert other req w).1 = 201%Z ->
  exists t l r,
    get (req_body req) "title" = VStr t
    ∧ get (req_body req) "location" = VStr l
    ∧ alerts (db (create_alert other req w).2) = (alerts (db w) ++ [r])%list
    ∧ r !! "title" = Some (VStr (trim t))
    ∧ r !! "location" = Some (VStr (trim l))
    ∧ (forall s, get (req_body req) "description" = VStr s ->
         r !! "description" = Some (if String.eqb (trim s) "" then VNull else VStr (trim s)))
    ∧ (get (req_body req) "description" = VUndefined
       ∨ get (req_body req) "description" = VNull ->
         r !! "description" = Some VNull)
    ∧ r !! "image_url" = Some (stringified (or_else (get (req_body req) "image_url") VNull))
    ∧ (forall s, get (req_body req) "image_url" = VStr s -> s ≠ "" ->
         r !! "image_url" = Some (VStr s))
    ∧ (truthy (get (req_body req) "image_url") = false -> r !! "image_url" = Some VNull).
Proof.
  intros Hcreated.
  destruct (create_alert_created other req w Hcreated) as (row & Hrow & Halerts).
  unfold alertData, bind in Hrow.
  destruct (call_trim "title" _ w) as [[t|e] w1] eqn:Ht; [|done].
  apply call_trim_inv in Ht as [-> (t' & Ht & ->)].
  destruct (opt_call_trim "description" _ w) as [[d|e] w2] eqn:Hd; [|done].
  pose proof (opt_call_trim_world _ _ _ _ _ Hd) as ->.
  apply opt_call_trim_inv in Hd.
  destruct (call_trim "location" _ w) as [[l|e] w3] eqn:Hl; [|done].
  apply call_trim_inv in Hl as [-> (l' & Hl & ->)].
  unfold ret in Hrow. injection Hrow as <-.
  match type of Halerts with context [sent ?r] => set (row := r) in * end.
  assert ((sent row ∪ defaults Alerts (clock w) (db w)) !! "image_url"
          = Some (stringified (or_else (get (req_body req) "image_url") VNull))) as Himage.
  { apply lookup_union_Some_l. rewrite lookup_sent. unfold row.
    do 8 (rewrite lookup_insert_ne by done). rewrite lookup_insert_eq.
    apply property_or_else. }
  exists t', l'. eexists. split_and!; [done | done | exact Halerts | ..].
  - apply lookup_union_Some_l. rewrite lookup_sent. unfold row.
    do 3 (rewrite lookup_insert_ne by done). by rewrite lookup_insert_eq.
  - apply lookup_union_Some_l. rewrite lookup_sent. unfold row.
    do 5 (rewrite lookup_insert_ne by done). by rewrite lookup_insert_eq.
  - intros s Hs. apply lookup_union_Some_l. rewrite lookup_sent. unfold row.
    do 4 (rewrite lookup_insert_ne by done). rewrite lookup_insert_eq.
    destruct Hd as [[[Hd | Hd] _] | (s' & Hd & ->)]; [congruence..|].
    assert (s' = s) as -> by congruence. unfold or_else. cbn [truthy].
    by destruct (String.eqb (trim s) "").
  - intros Hnone. apply lookup_union_Some_l. rewrite lookup_sent. unfold row.
    do 4 (rewrite lookup_insert_ne by done). rewrite lookup_insert_eq.
    destruct Hd as [[_ ->] | (s' & Hd & ->)]; [done|].
    destruct Hnone; congruence.
  - exact Himage.
  - intros s Hs Hne. rewrite Himage, Hs. unfold or_else. cbn [truthy].
    apply String.eqb_neq in Hne. by rewrite Hne.
  - intros Hfalsy. rewrite Himage. unfold or_else. by rewrite Hfalsy.
Qed.

End CreateTexts.

(** ** The further properties on the sample data *)

Lemma denied_requests_change_nothing_witness :
  let req := request1 (caller 5 "user") {[ "status" := VStr "resolved" ]} in
  update_alert req world1 = (respond Forbidden "Access denied", world1)
  ∧ assign req world1 = (respond Forbidden "Access denied", world1)
  ∧ delete_alert req world1 = (respond Forbidden "Access denied. Admin only.", world1)
  ∧ set_status req world1 = (respond Forbidden "Access denied", world1).
Proof.
  destruct (denied_requests_change_nothing
              (request1 (caller 5 "user") {[ "status" := VStr "resolved" ]}) world1)
    as (Hwrite & Hdelete & Hstatus).
  destruct Hwrite as [Hupdate Hassign]; [evaluate|].
  split_and!; [done | done | apply Hdelete; evaluate | apply Hstatus; evaluate].
Defined.

Lemma first_refusal_is_server_error_witness :
  let req := request1 (caller 1 "admin") {[ "status" := VStr "resolved" ]} in
  let w := world_refusing [Some timeout] in
  list_alerts req w = (server_error timeout, after_call (db w) w)
  ∧ get_alert req w = (server_error timeout, after_call (db w) w)
  ∧ update_alert req w = (server_error timeout, after_call (db w) w)
  ∧ assign req w = (server_error timeout, after_call (db w) w)
  ∧ set_status req w = (server_error timeout, after_call (db w) w)
  ∧ delete_alert req w = (server_error timeout, after_call (db w) w).
Proof.
  destruct (first_refusal_is_server_error
              (request1 (caller 1 "admin") {[ "status" := VStr "resolved" ]})
              (world_refusing [Some timeout]) timeout [] eq_refl)
    as (Hlist & Hget & Hwrite & Hstatus & Hdelete).
  destruct Hwrite as [Hupdate Hassign]; [evaluate|].
  split_and!; [done.. | apply Hstatus; evaluate | apply Hdelete; evaluate].
Defined.

Lemma get_alert_checks_owner_witness :
  get_alert (request1 (caller 6 "user") ∅) world1
  = (respond Forbidden "Access denied", after_call (db world1) world1)
  ∧ get_alert (request1 (caller 5 "user") ∅) world1
    = (send (DRow (expand (db world1) full_alert alert1)), after_call (db world1) world1).
Proof.
  split.
  - apply (get_alert_checks_owner (request1 (caller 6 "user") ∅) world1 alert1);
      evaluate.
  - apply (get_alert_checks_owner (request1 (caller 5 "user") ∅) world1 alert1);
      [evaluate | evaluate | right; evaluate].
Defined.

Lemma writes_to_missing_alert_are_server_errors_witness :
  let req := request_on "999" (caller 1 "admin") {[ "status" := VStr "resolved" ]} in
  update_alert req world1 = (server_error not_single, after_call (db world1) world1)
  ∧ assign req world1 = (server_error not_single, after_call (db world1) world1)
  ∧ set_status req world1 = (server_error not_single, after_call (db world1) world1).
Proof.
  destruct (writes_to_missing_alert_are_server_errors
              (request_on "999" (caller 1 "admin") {[ "status" := VStr "resolved" ]}) world1)
    as [Hwrite Hstatus]; [evaluate | evaluate |].
  destruct Hwrite as [Hupdate Hassign]; [evaluate|].
  split_and!; [done | done | apply Hstatus; evaluate].
Defined.

Lemma delete_alert_removes_named_witness :
  let req := request1 (caller 1 "admin") ∅ in
  (delete_alert req world1).1 = {| status := 200; json := Message "Alert deleted successfully" |}
  ∧ alerts (db (delete_alert req world1).2)
    = filter (fun r => named req r = false) (alerts (db world1))
  ∧ vehicles (db (delete_alert req world1).2) = vehicles (db world1)
  ∧ (filter (fun r => named req r = true) (alerts (db world1)) = [] ->
       alerts (db (delete_alert req world1).2) = alerts (db world1)).
Proof.
  apply (delete_alert_removes_named (request1 (caller 1 "admin") ∅) world1); evaluate.
Defined.

(** Deleting alert 1, which is assigned vehicle 10: alert 2 stays, and
    vehicle 10 is still [assigned]. *)
Example delete_alert_sample :
  let w := (delete_alert (request1 (caller 1 "admin") ∅) world1).2 in
  ((.!! "id") <$> alerts (db w)) = [Some (int 2)]
  ∧ ((.!! "status") <$> vehicles (db w)) = [Some (VStr "assigned"); Some (VStr "available")].
Proof. split; evaluate. Qed.

Lemma get_after_delete_is_server_error_witness :
  status (get_alert (request1 (caller 5 "user") ∅)
            (delete_alert (request1 (caller 1 "admin") ∅) world1).2).1 = ServerError.
Proof.
  apply (get_after_delete_is_server_error (request1 (caller 1 "admin") ∅)
           (request1 (caller 5 "user") ∅) world1); [evaluate | evaluate | done].
Defined.

Lemma create_sets_owner_and_status_witness :
  let req := request1 (caller 5 "user") forged_report in
  exists r,
    alerts (db (create_alert no_text req world1).2) = (alerts (db world1) ++ [r])%list
    ∧ r !! "user_id" = property (u_id (req_user req))
    ∧ (scalar (u_id (req_user req)) = true -> r !! "user_id" = Some (u_id (req_user req)))
    ∧ r !! "status" = Some (VStr "pending")
    ∧ r !! "id" = Some (int (alert_seq (db world1)))
    ∧ r !! "reported_at" = Some (VStr (clock world1))
    ∧ r !! "assigned_vehicle_id" = None
    ∧ r !! "assigned_responder_id" = None
    ∧ vehicles (db (create_alert no_text req world1).2) = vehicles (db world1)
    ∧ alert_seq (db (create_alert no_text req world1).2) = (alert_seq (db world1) + 1)%Z.
Proof.
  apply (create_sets_owner_and_status no_text (request1 (caller 5 "user") forged_report)
           world1).
  evaluate.
Defined.

Lemma create_non_text_is_server_error_witness :
  let req := request1 (caller 5 "user") numbered_report in
  status (create_alert no_text req world1).1 = ServerError
  ∧ (create_alert no_text req world1).2 = world1.
Proof.
  apply (create_non_text_is_server_error no_text
           (request1 (caller 5 "user") numbered_report) world1);
    [evaluate | evaluate | evaluate | evaluate |].
  left. intros s Hs. vm_compute in Hs. discriminate Hs.
Defined.

(** The messages of these answers: the call as the handler writes it. *)
Example create_non_text_messages :
  (create_alert no_text (request1 (caller 5 "user") numbered_report) world1).1
  = respond ServerError "title.trim is not a function"
  ∧ (create_alert no_text
       (request1 (caller 5 "user")
          (<["description" := int 5]> (report "Fire" VUndefined VUndefined))) world1).1
    = respond ServerError "description?.trim is not a function".
Proof. split; evaluate. Qed.

Lemma create_stores_trimmed_texts_witness :
  let req := request1 (caller 5 "user") forged_report in
  exists t l r,
    get (req_body req) "title" = VStr t
    ∧ get (req_body req) "location" = VStr l
    ∧ alerts (db (create_alert no_text req world1).2) = (alerts (db world1) ++ [r])%list
    ∧ r !! "title" = Some (VStr (trim t))
    ∧ r !! "location" = Some (VStr (trim l))
    ∧ (forall s, get (req_body req) "description" = VStr s ->
         r !! "description" = Some (if String.eqb (trim s) "" then VNull else VStr (trim s)))
    ∧ (get (req_body req) "description" = VUndefined
       ∨ get (req_body req) "description" = VNull ->
         r !! "description" = Some VNull)
    ∧ r !! "image_url" = Some (stringified (or_else (get (req_body req) "image_url") VNull))
    ∧ (forall s, get (req_body req) "image_url" = VStr s -> s ≠ "" ->
         r !! "image_url" = Some (VStr s))
    ∧ (truthy (get (req_body req) "image_url") = false -> r !! "image_url" = Some VNull).
Proof.
  apply (create_stores_trimmed_texts no_text (request1 (caller 5 "user") forged_report)
           world1).
  evaluate.
Defined.

(** The row Create stores for the forged payload. *)
Example create_forged_sample :
  let w := (create_alert no_text (request1 (caller 5 "user") forged_report) world1).2 in
  ((.!! "user_id") <$> alerts (db w)) = [Some (int 5); Some (int 6); Some (int 5)]
  ∧ ((.!! "status") <$> alerts (db w))
    = [Some (VStr "pending"); Some (VStr "pending"); Some (VStr "pending")]
  ∧ ((.!! "title") <$> alerts (db w))
    = [Some (VStr "Warehouse fire"); Some (VStr "Fainting");
       Some (VStr "Flood on Main Street")].
Proof. split_and!; evaluate. Qed.

Lemma set_status_overwrites_status_witness :
  let req := request1 (caller 8 "rescuer") {[ "status" := VStr "cancelled" ]} in
  let w := world1 in
  let d := status_updateData (clock w) (get (req_body req) "status") in
  alerts (db (set_status req w).2) = merged req d (alerts (db w))
  ∧ (d ∪ alert1) !! "status" = Some (get (req_body req) "status")
  ∧ (d ∪ alert1) !! "updated_at" = Some (VStr (clock w))
  ∧ (forall k, k ≠ "status" -> k ≠ "updated_at" -> (d ∪ alert1) !! k = alert1 !! k).
Proof.
  apply (set_status_overwrites_status
           (request1 (caller 8 "rescuer") {[ "status" := VStr "cancelled" ]}) world1 alert1);
    evaluate.
Defined.

(** Back from [resolved] to [pending]: no transition is turned down. *)
Example set_status_backwards :
  let resolve := request1 (caller 7 "dispatcher") {[ "status" := VStr "resolved" ]} in
  let reopen := request1 (caller 8 "rescuer") {[ "status" := VStr "pending" ]} in
  let w1 := (set_status resolve world1).2 in
  status (set_status reopen w1).1 = 200%Z
  ∧ ((.!! "status") <$> alerts (db (set_status reopen w1).2))
    = [Some (VStr "pending"); Some (VStr "pending")].
Proof. split; evaluate. Qed.

Lemma assign_writes_three_columns_witness :
  let req := request1 (caller 7 "dispatcher")
               {[ "vehicle_id" := int 20; "responder_id" := int 8 ]} in
  let w := world1 in
  let d := sent (assign_updateData (clock w) (get (req_body req) "vehicle_id")
             (get (req_body req) "responder_id")) in
  alerts (db (assign req w).2) = merged req d (alerts (db w))
  ∧ (forall k c, (k, c) = ("vehicle_id", "assigned_vehicle_id")
                 ∨ (k, c) = ("responder_id", "assigned_responder_id") ->
       (d ∪ alert1) !! c = Some (stringified (or_else (get (req_body req) k) VNull))
       ∧ (scalar (get (req_body req) k) = true ->
            (d ∪ alert1) !! c = Some (or_else (get (req_body req) k) VNull))
       ∧ (truthy (get (req_body req) k) = false -> (d ∪ alert1) !! c = Some VNull)
       ∧ (forall n, get (req_body req) k = VNum n -> scalar (VNum n) = false ->
            (d ∪ alert1) !! c = Some VNull))
  ∧ (d ∪ alert1) !! "updated_at" = Some (VStr (clock w))
  ∧ (forall k, k ≠ "assigned_vehicle_id" -> k ≠ "assigned_responder_id" ->
       k ≠ "updated_at" -> (d ∪ alert1) !! k = alert1 !! k).
Proof.
  apply (assign_writes_three_columns
           (request1 (caller 7 "dispatcher")
              {[ "vehicle_id" := int 20; "responder_id" := int 8 ]}) world1 alert1);
    evaluate.
Defined.

Lemma assign_same_vehicle_again_witness :
  let req := request1 (caller 7 "dispatcher") {[ "vehicle_id" := int 10 ]} in
  let w := world1 in
  let d := sent (assign_updateData (clock w) (int 10) (get (req_body req) "responder_id")) in
  let w2 := after_call (set_table Alerts (merged req d (alerts (db w))) (db w))
              (after_call (db w) w) in
  status (assign req w).1 = 200%Z
  ∧ (assign req w).2 = (await (vehicle_status (int 10) "assigned") w2).2
  ∧ (refused 2 w = false ->
       vehicles (db (assign req w).2) = with_status (int 10) "assigned" (vehicles (db w))).
Proof.
  apply (assign_same_vehicle_again
           (request1 (caller 7 "dispatcher") {[ "vehicle_id" := int 10 ]}) world1 alert1 10);
    [evaluate | evaluate | evaluate | evaluate | evaluate | evaluate | done].
Defined.

Lemma assign_without_vehicle_witness :
  let req := request1 (caller 7 "dispatcher") ∅ in
  let w := world1 in
  let d := sent (assign_updateData (clock w) (get (req_body req) "vehicle_id")
             (get (req_body req) "responder_id")) in
  let old := get alert1 "assigned_vehicle_id" in
  let w2 := after_call (set_table Alerts (merged req d (alerts (db w))) (db w))
              (after_call (db w) w) in
  status (assign req w).1 = 200%Z
  ∧ (d ∪ alert1) !! "assigned_vehicle_id" = Some VNull
  ∧ (truthy old = true ->
       (assign req w).2 = (await (vehicle_status old "available") w2).2
       ∧ (refused 2 w = false ->
            vehicles (db (assign req w).2) = with_status old "available" (vehicles (db w))))
  ∧ (truthy old = false -> (assign req w).2 = w2).
Proof.
  apply (assign_without_vehicle (request1 (caller 7 "dispatcher") ∅) world1 alert1);
    evaluate.
Defined.

(** Clearing the assignment of alert 1 releases vehicle 10. *)
Example assign_without_vehicle_sample :
  let w := (assign (request1 (caller 7 "dispatcher") ∅) world1).2 in
  ((.!! "assigned_vehicle_id") <$> alerts (db w)) = [Some VNull; Some VNull]
  ∧ ((.!! "status") <$> vehicles (db w)) = [Some (VStr "available"); Some (VStr "available")].
Proof. split; evaluate. Qed.

Lemma list_alerts_pass_filters_witness :
  let req := list_with (caller 1 "admin")
               {[ "status" := VArr [VStr "pending"]; "alert_type" := VStr "medical";
                  "user_id" := VStr "6" ]} in
  let rs := rows_of (list_alerts req world1).1 in
  (forall c t, c = "status" ∨ c = "alert_type" ->
     truthy (get (req_query req) c) = true ->
     text (get (req_query req) c) = Some t ->
     Forall (fun r => pg_eq (cell r c) (get (req_query req) c) = true
                      ∧ forall a, cell r c = VStr a -> a = t) rs)
  ∧ (strict_eq (u_role (req_user req)) (VStr "user") = false ->
     truthy (get (req_query req) "user_id") = true ->
     is_Some (text (get (req_query req) "user_id")) ->
     Forall (fun r => pg_eq (cell r "user_id") (get (req_query req) "user_id") = true) rs).
Proof.
  apply (list_alerts_pass_filters
           (list_with (caller 1 "admin")
              {[ "status" := VArr [VStr "pending"]; "alert_type" := VStr "medical";
                 "user_id" := VStr "6" ]})
           world1).
  evaluate.
Defined.

(** The filtered list on the sample store is alert 2; the unfiltered one
    has the later report first. *)
Example list_alerts_filtered_sample :
  ((.!! "id") <$> rows_of (list_alerts
      (list_with (caller 1 "admin")
         {[ "status" := VStr "pending"; "alert_type" := VStr "medical";
            "user_id" := VStr "6" ]}) world1).1) = [Some (int 2)]
  ∧ ((.!! "id") <$> rows_of (list_alerts (list_with (caller 1 "admin") ∅) world1).1)
    = [Some (int 2); Some (int 1)].
Proof. split; evaluate. Qed.

(** A filter given as an array ([?status[]=pending]) selects as its text
    does; two elements make the text [pending,resolved], which is the
    status of no alert. *)
Example list_alerts_array_filter_sample :
  ((.!! "id") <$> rows_of (list_alerts
      (list_with (caller 1 "admin") {[ "status" := VArr [VStr "pending"] ]}) world1).1)
  = [Some (int 2); Some (int 1)]
  ∧ ((.!! "id") <$> rows_of (list_alerts
      (list_with (caller 1 "admin")
         {[ "status" := VArr [VStr "pending"]; "alert_type" := VStr "medical";
            "user_id" := VStr "6" ]}) world1).1) = [Some (int 2)]
  ∧ ((.!! "id") <$> rows_of (list_alerts
      (list_with (caller 1 "admin")
         {[ "status" := VArr [VStr "pending"; VStr "resolved"] ]}) world1).1) = [].
Proof. split_and!; evaluate. Qed.

Lemma list_alerts_unfiltered_witness :
  let req := list_with (caller 1 "admin") ∅ in
  exists rs,
    list_alerts req world1 = (send (DRows rs), after_call (db world1) world1)
    ∧ rs ≡ₚ expand (db world1) full_alert <$> alerts (db world1).
Proof.
  apply (list_alerts_unfiltered (list_with (caller 1 "admin") ∅) world1); evaluate.
Defined.

Lemma set_status_twice_witness :
  let req := request1 (caller 7 "dispatcher") {[ "status" := VStr "responding" ]} in
  set_status req (set_status req world1).2 = set_status req world1.
Proof.
  apply (set_status_twice
           (request1 (caller 7 "dispatcher") {[ "status" := VStr "responding" ]})
           world1 alert1); evaluate.
Defined.

(** *** An answer that is not a success *)

Lemma exec_update_single_cases now req d sel s :
  exec now (single (select sel (alert_by_id req (update d (from Alerts))))) s
  = (refuse not_single, s)
  ∨ exists r s',
      exec now (single (select sel (alert_by_id req (update d (from Alerts))))) s
      = (answer (DRow r), s').
Proof.
  unfold exec, alert_by_id, commit, returning. cbn.
  destruct (expand _ sel <$> _) as [|r [|r' rest]]; cbn; eauto.
Qed.

Lemma exec_read_cases now req s :
  exec now (single (alert_by_id req (select current_assignment (from Alerts)))) s
  = (refuse not_single, s)
  ∨ exists r,
      exec now (single (alert_by_id req (select current_assignment (from Alerts)))) s
      = (answer (DRow r), s).
Proof.
  unfold exec, alert_by_id, returning. cbn.
  destruct (expand _ current_assignment <$> _) as [|r [|r' rest]]; cbn; eauto.
Qed.

Section CreateAtomic.
Variable other : value -> number.

(** X21.  Create adds a row or does nothing: for every request and every
    world, an answer other than 201 leaves the store as it was. *)
Theorem create_all_or_nothing req w :
  status (create_alert other req w).1 ≠ 201%Z ->
  db (create_alert other req w).2 = db w.
Proof.
  unfold create_alert, try_catch.
  destruct (_ || _ || _ || _); [done|].
  destruct (includes validAlertTypes _); [|done].
  destruct (includes validSeverities _); [|done]. cbn [negb].
  destruct (alertData other req w) as [[row|e] w1] eqn:Hrow.
  - pose proof (alertData_world _ _ _ _ _ Hrow) as ->.
    rewrite (bind_ok _ _ _ _ _ Hrow). destruct (refused 0 w) eqn:Hf.
    + destruct (await_refused (single (select created_alert (insert row (from Alerts)))) w Hf)
        as [e He].
      by rewrite (bind_ok _ _ _ _ _ He).
    + rewrite (bind_ok _ _ _ _ _ (await_accepted _ w Hf)), exec_insert_alert.
      by intros [].
  - pose proof (alertData_world _ _ _ _ _ Hrow) as ->.
    by rewrite (bind_thrown _ _ _ _ _ Hrow).
Qed.

End CreateAtomic.

(** X22.  Update, SetStatus, Assign and Delete write nothing unless they
    succeed: for every request and every world, an answer other than 200
    leaves the store as it was. *)
Theorem failed_writes_change_nothing req w :
  (status (update_alert req w).1 ≠ 200%Z -> db (update_alert req w).2 = db w)
  ∧ (status (set_status req w).1 ≠ 200%Z -> db (set_status req w).2 = db w)
  ∧ (status (assign req w).1 ≠ 200%Z -> db (assign req w).2 = db w)
  ∧ (status (delete_alert req w).1 ≠ 200%Z -> db (delete_alert req w).2 = db w).
Proof.
  split_and!.
  - destruct (update_alert req w) as [r w'] eqn:Hrun. cbn [fst snd]. revert Hrun.
    unfold update_alert, try_catch.
    destruct (negb (includes _ (u_role _))); [by intros [= <- <-]|].
    unfold toISOString at 1. unfold bind at 1. destruct (refused 0 w) eqn:Hf.
    + destruct (await_refused
        (single (select star (alert_by_id req
           (update (put_updateData (clock w) (req_body req)) (from Alerts))))) w Hf)
        as [e He].
      rewrite (bind_ok _ _ _ _ _ He). by intros [= <- <-].
    + rewrite (bind_ok _ _ _ _ _ (await_accepted _ w Hf)).
      destruct (exec_update_single_cases (clock w) req
                  (put_updateData (clock w) (req_body req)) star (db w))
        as [-> | (r1 & s' & ->)]; [by intros [= <- <-]|].
      by intros [= <- <-] [].
  - destruct (set_status req w) as [r w'] eqn:Hrun. cbn [fst snd]. revert Hrun.
    unfold set_status, try_catch.
    destruct (negb (includes validStatuses _)); [by intros [= <- <-]|].
    destruct (negb (includes _ (u_role _))); [by intros [= <- <-]|].
    unfold toISOString at 1. unfold bind at 1. destruct (refused 0 w) eqn:Hf.
    + destruct (await_refused
        (single (select star (alert_by_id req
           (update (status_updateData (clock w) (get (req_body req) "status"))
              (from Alerts))))) w Hf) as [e He].
      rewrite (bind_ok _ _ _ _ _ He). by intros [= <- <-].
    + rewrite (bind_ok _ _ _ _ _ (await_accepted _ w Hf)).
      destruct (exec_update_single_cases (clock w) req
                  (status_updateData (clock w) (get (req_body req) "status")) star (db w))
        as [-> | (r1 & s' & ->)]; [by intros [= <- <-]|].
      cbn [fst snd r_error r_data answer]. unfold throw_if, ret at 1. unfold bind at 1.
      rewrite (bind_ok _ _ _ _ _ (reconcile_row _ _ _ _ _)).
      rewrite (bind_ok _ _ _ _ _ (reconcile_row _ _ _ _ _)).
      by intros [= <- <-] [].
  - destruct (assign req w) as [r w'] eqn:Hrun. cbn [fst snd]. revert Hrun.
    unfold assign, try_catch.
    destruct (negb (includes _ (u_role _))); [by intros [= <- <-]|].
    destruct (refused 0 w) eqn:Hf0.
    { destruct (await_refused
        (single (alert_by_id req (select current_assignment (from Alerts)))) w Hf0)
        as [e He].
      rewrite (bind_ok _ _ _ _ _ He). by intros [= <- <-]. }
    rewrite (bind_ok _ _ _ _ _ (await_accepted _ w Hf0)).
    destruct (exec_read_cases (clock w) req (db w)) as [-> | (c & ->)];
      [by intros [= <- <-]|].
    cbn [fst snd r_error r_data answer]. unfold throw_if at 1, ret at 1. unfold bind at 1.
    unfold toISOString at 1. unfold bind at 1. cbn [clock db after_call].
    destruct (refused 0 (after_call (db w) w)) eqn:Hf1.
    { destruct (await_refused
        (single (select assigned_alert (alert_by_id req
           (update (assign_updateData (clock w) (get (req_body req) "vehicle_id")
                      (get (req_body req) "responder_id")) (from Alerts)))))
        (after_call (db w) w) Hf1) as [e He].
      rewrite (bind_ok _ _ _ _ _ He). by intros [= <- <-]. }
    rewrite (bind_ok _ _ _ _ _ (await_accepted _ _ Hf1)). cbn [clock db after_call].
    destruct (exec_update_single_cases (clock w) req
                (assign_updateData (clock w) (get (req_body req) "vehicle_id")
                   (get (req_body req) "responder_id")) assigned_alert (db w))
      as [-> | (r1 & s' & ->)]; [by intros [= <- <-]|].
    cbn [fst snd r_error r_data answer]. unfold throw_if, ret at 1. unfold bind at 1.
    rewrite (bind_ok _ _ _ _ _ (release_old_world _ _ _)).
    rewrite (bind_ok _ _ _ _ _ (claim_new_world _ _)).
    by intros [= <- <-] [].
  - destruct (delete_alert req w) as [r w'] eqn:Hrun. cbn [fst snd]. revert Hrun.
    unfold delete_alert, try_catch.
    destruct (negb (strict_eq _ _)); [by intros [= <- <-]|]. destruct (refused 0 w) eqn:Hf.
    + destruct (await_refused (alert_by_id req (delete (from Alerts))) w Hf) as [e He].
      rewrite (bind_ok _ _ _ _ _ He). by intros [= <- <-].
    + rewrite (bind_ok _ _ _ _ _ (await_accepted _ w Hf)), exec_delete_named.
      by intros [= <- <-] [].
Qed.

(** ** The last two properties on the sample data *)

Lemma create_all_or_nothing_witness :
  db (create_alert no_text (request1 (caller 5 "user") numbered_report) world1).2 = db world1.
Proof.
  apply (create_all_or_nothing no_text (request1 (caller 5 "user") numbered_report) world1).
  intros H. vm_compute in H. discriminate H.
Defined.

Lemma failed_writes_change_nothing_witness :
  let req := request_on "999" (caller 1 "admin") {[ "status" := VStr "resolved" ]} in
  let w := world_refusing [Some timeout] in
  db (update_alert req world1).2 = db world1
  ∧ db (set_status req world1).2 = db world1
  ∧ db (assign req world1).2 = db world1
  ∧ db (delete_alert req w).2 = db w.
Proof.
  destruct (failed_writes_change_nothing
              (request_on "999" (caller 1 "admin") {[ "status" := VStr "resolved" ]}) world1)
    as (Hupdate & Hstatus & Hassign & _).
  destruct (failed_writes_change_nothing
              (request_on "999" (caller 1 "admin") {[ "status" := VStr "resolved" ]})
              (world_refusing [Some timeout]))
    as (_ & _ & _ & Hdelete).
  split_and!;
    [apply Hupdate | apply Hstatus | apply Hassign | apply Hdelete];
    intros H; vm_compute in H; discriminate H.
Defined.
